(** * E-commerce data generator: a shallow embedding of
    [01-ecommerce-analytics/src/data_generator.py]

    The class [EcommerceDataGenerator] builds three tables (customers,
    products, transactions) from numpy's process-global random state and the
    wall clock.  The embedding keeps the shape of the Python code:

    - a table (pandas DataFrame) is a list of row records, in row order;
    - binary64 numbers are exact rationals ([Q]); [round(x, 2)] is rounding
      to the nearest hundredth, ties to even.  Rounding error of the float
      operations themselves is outside the model;
    - timestamps are integers: microseconds since the epoch for [datetime],
      nanoseconds since the epoch for pandas timestamps;
    - numpy's global [RandomState] is a stream of 53-bit variates with a
      cursor; every scalar draw reads the variate under the cursor and moves
      the cursor by one;
    - [datetime.now()] reads the next value of a sequence of clock readings;
    - Python exceptions are an error result; the state is threaded through
      every call in the order in which Python evaluates it. *)

From Stdlib Require Import String Ascii DecimalString Bool ZArith QArith Qround
  Qabs List Lia Lqa.
Import ListNotations.

Open Scope Z_scope.

(** ** Data model *)

Inductive Segment := Premium | Standard | Basic.
Inductive Region := North | South | East | West | Central.
Inductive AgeGroup := Age18_25 | Age26_35 | Age36_45 | Age46_55 | Age55plus.
Inductive Category := Electronics | Clothing | Books | Home | Sports | Beauty.
Inductive Channel := Online | Store.

(** A row of the customers table. *)
Record Customer := mkCustomer {
  customer_id : Z;
  customer_segment : Segment;
  region : Region;
  registration_date : Z;
  age_group : AgeGroup
}.

(** A row of the products table. *)
Record Product := mkProduct {
  product_id : Z;
  category : Category;
  base_price : Q;
  cost : Q;
  profit_margin : Q
}.

(** A row of the transactions table; the [tx_] prefix keeps the two foreign
    keys apart from the key columns of the other tables. *)
Record Transaction := mkTransaction {
  transaction_id : Z;
  tx_customer_id : Z;
  tx_product_id : Z;
  quantity : Z;
  unit_price : Q;
  total_amount : Q;
  transaction_date : Z;
  channel : Channel
}.

(** The attributes of [self] set by [__init__]. *)
Record EcommerceDataGenerator := mkGenerator {
  n_customers : Z;
  n_products : Z;
  n_transactions : Z
}.

(** ** Numbers *)

(** Nearest integer, ties to even (numpy's [rint], and the rule of Python's
    [round] and of [timedelta] on exact values). *)
Definition rint (x : Q) : Z :=
  let f := Qfloor x in
  match Qcompare (x - inject_Z f) (1 # 2) with
  | Lt => f
  | Gt => f + 1
  | Eq => if Z.even f then f else f + 1
  end.

(** [round(x, 2)]. *)
Definition round2 (x : Q) : Q := Qmake (rint (x * 100)) 100.

(** Python's [min(a, b)]: [b] when [b < a], else [a]. *)
Definition py_min (a b : Q) : Q := if Qle_bool a b then a else b.

Definition microseconds_per_day : Z := 86400000000.

(** [timedelta(days=d)] in microseconds. *)
Definition timedelta_days (d : Q) : Z :=
  rint (d * inject_Z microseconds_per_day).

Fixpoint Qsum (l : list Q) : Q :=
  match l with
  | [] => 0%Q
  | x :: r => (x + Qsum r)%Q
  end.

(** [range(lo, hi)]. *)
Definition range (lo hi : Z) : list Z :=
  map (fun i => lo + Z.of_nat i) (seq 0 (Z.to_nat (hi - lo))).

(** ** Effects: exceptions, the random state and the clock *)

Inductive Exception :=
| ValueError (msg : string)
| IndexError (msg : string).

Inductive Result (A : Type) :=
| Ok (a : A)
| Raise (e : Exception).
Arguments Ok {A} a.
Arguments Raise {A} e.

(** numpy's global random state. *)
Record RandomState := mkRandomState {
  variates : nat -> N;
  cursor : nat
}.

(** What the program reads and changes besides its arguments. *)
Record World := mkWorld {
  np_random : RandomState;
  wall_clock : nat -> Z;
  clock_reads : nat
}.

Definition M (A : Type) : Type := World -> Result (A * World).

Definition ret {A} (a : A) : M A := fun w => Ok (a, w).

Definition bind {A B} (m : M A) (f : A -> M B) : M B :=
  fun w =>
    match m w with
    | Ok (a, w') => f a w'
    | Raise e => Raise e
    end.

Definition raise {A} (e : Exception) : M A := fun _ => Raise e.

Notation "'do' x <- m ; k" := (bind m (fun x => k))
  (at level 10, x name, m at level 100, k at level 200).

(** ** The platform underneath: numpy.random, pandas, datetime

    Only the behaviour the generator relies on is modelled.  Two things are
    left open and taken as parameters: the variate stream that
    [np.random.seed] installs for a seed (MT19937 in numpy), and the
    logarithm behind the exponential variate, of which only the sign on the
    unit interval is used. *)

Class Platform := {
  seed_stream : Z -> nat -> N;
  neg_log1m : Q -> Q;
  neg_log1m_nonneg : forall u : Q, (0 <= u)%Q -> (u < 1)%Q -> (0 <= neg_log1m u)%Q
}.

(** [2^53]. *)
Definition two53 : positive := 9007199254740992.

(** A variate, cut to 53 bits, as a number of the half-open unit interval
    [k / 2^53]. *)
Definition unit_variate (k : N) : Q :=
  Qmake (Z.of_N (k mod N.pos two53)) two53.

Definition advance (s : RandomState) : RandomState :=
  mkRandomState (variates s) (S (cursor s)).

(** [np.random.random_sample()]: one variate, the cursor moves by one. *)
Definition random_sample : M Q :=
  fun w =>
    let s := np_random w in
    Ok (unit_variate (variates s (cursor s)),
        mkWorld (advance s) (wall_clock w) (clock_reads w)).

(** [np.random.seed(s)]. *)
Definition np_random_seed `{Platform} (s : Z) : M unit :=
  fun w => Ok (tt, mkWorld (mkRandomState (seed_stream s) 0)
                           (wall_clock w) (clock_reads w)).

(** [datetime.now()], in microseconds. *)
Definition datetime_now : M Z :=
  fun w => Ok (wall_clock w (clock_reads w),
               mkWorld (np_random w) (wall_clock w) (S (clock_reads w))).

Fixpoint cumsum_from (acc : Q) (p : list Q) : list Q :=
  match p with
  | [] => []
  | x :: r => (acc + x)%Q :: cumsum_from (acc + x)%Q r
  end.

(** [cdf = p.cumsum(); cdf /= cdf[-1]]. *)
Definition cdf_of (p : list Q) : list Q :=
  let c := cumsum_from 0 p in
  map (fun x => (x / last c 0)%Q) c.

(** [cdf.searchsorted(u, side='right')] on an ascending [cdf]. *)
Fixpoint searchsorted_right (cdf : list Q) (u : Q) : nat :=
  match cdf with
  | [] => O
  | c :: r => if Qle_bool c u then S (searchsorted_right r u) else O
  end.

(** The index [randint(0, n)] makes of a variate. *)
Definition uniform_index (n : nat) (u : Q) : nat :=
  Z.to_nat (Qfloor (u * inject_Z (Z.of_nat n))).

(** Tolerance of the check that [p] sums to one: the square root of the
    binary64 machine epsilon. *)
Definition atol : Q := Qmake 1 67108864.

(** The argument checks of [np.random.choice(a, size, p=p)], in numpy's
    order. *)
Definition choice_checks {A} (a : list A) (no_samples : bool)
    (p : option (list Q)) : M unit :=
  if (Nat.eqb (length a) 0 && negb no_samples)%bool then
    raise (ValueError "'a' cannot be empty unless no samples are taken")
  else
    match p with
    | None => ret tt
    | Some p =>
        if negb (Nat.eqb (length p) (length a)) then
          raise (ValueError "'a' and 'p' must have same size")
        else if existsb (fun x => negb (Qle_bool 0 x)) p then
          raise (ValueError "probabilities are not non-negative")
        else if negb (Qle_bool (Qabs (Qsum p - 1)) atol) then
          raise (ValueError "probabilities do not sum to 1")
        else ret tt
    end.

(** The index into a population of [n] elements that a variate selects:
    inverse CDF with [p], [randint] without. *)
Definition index_of (n : nat) (p : option (list Q)) (u : Q) : nat :=
  match p with
  | Some p => searchsorted_right (cdf_of p) u
  | None => uniform_index n u
  end.

Definition choice_index (n : nat) (p : option (list Q)) : M nat :=
  do u <- random_sample;
  ret (index_of n p u).

(** [a[idx]]. *)
Definition take {A} (a : list A) (idx : nat) : M A :=
  match nth_error a idx with
  | Some x => ret x
  | None => raise (IndexError "index out of bounds")
  end.

(** [np.random.choice(a, p=p)]: one element. *)
Definition choice {A} (a : list A) (p : option (list Q)) : M A :=
  do _ <- choice_checks a false p;
  do idx <- choice_index (length a) p;
  take a idx.

Fixpoint replicateM {A} (n : nat) (m : M A) : M (list A) :=
  match n with
  | O => ret []
  | S k => do x <- m; do xs <- replicateM k m; ret (x :: xs)
  end.

Fixpoint mapM {A B} (f : A -> M B) (l : list A) : M (list B) :=
  match l with
  | [] => ret []
  | x :: r => do y <- f x; do ys <- mapM f r; ret (y :: ys)
  end.

(** An array of [n] draws; a negative size is refused. *)
Definition sized {A} (n : Z) (m : M A) : M (list A) :=
  if n <? 0 then raise (ValueError "negative dimensions are not allowed")
  else replicateM (Z.to_nat n) m.

(** [np.random.choice(a, n, p=p)]: an array of [n] elements. *)
Definition choice_n {A} (a : list A) (n : Z) (p : option (list Q))
  : M (list A) :=
  do _ <- choice_checks a (n =? 0) p;
  do idx <- sized n (choice_index (length a) p);
  mapM (take a) idx.

(** [np.random.uniform(low, high, n)]. *)
Definition uniform (low high : Q) (n : Z) : M (list Q) :=
  sized n (do u <- random_sample; ret (low + (high - low) * u)%Q).

(** [np.random.exponential(scale)]: [-log(1 - u) * scale]. *)
Definition exponential `{Platform} (scale : Q) : M Q :=
  do u <- random_sample;
  ret (neg_log1m u * scale)%Q.

Definition nanoseconds_per_day : Z := 86400000000000.

(** Days from the epoch to 2022-01-01 and to 2024-12-31. *)
Definition date_2022_01_01 : Z := 18993 * nanoseconds_per_day.
Definition date_2024_12_31 : Z := 20088 * nanoseconds_per_day.

(** [pd.date_range(start, end, periods)]: [periods] instants evenly spaced
    from [start] to [end], both included. *)
Definition date_range (start stop periods : Z) : M (list Z) :=
  if periods <? 0 then
    raise (ValueError "Number of samples must be non-negative")
  else
    ret (map (fun i => start + (i * (stop - start)) / (periods - 1))
             (range 0 periods)).

(** [s.iloc[0]]. *)
Definition iloc0 {A} (s : list A) : M A :=
  match s with
  | x :: _ => ret x
  | [] => raise (IndexError "single positional indexer is out-of-bounds")
  end.

(** [pd.DataFrame] from columns: the columns must have one length. *)
Definition same_length {A B} (a : list A) (b : list B) : bool :=
  Nat.eqb (length a) (length b).

Definition DataFrame4 {A B C D} (a : list A) (b : list B) (c : list C)
    (d : list D) : M (list (A * (B * (C * D)))) :=
  if (same_length a b && same_length a c && same_length a d)%bool then
    ret (combine a (combine b (combine c d)))
  else raise (ValueError "All arrays must be of the same length").

Definition DataFrame5 {A B C D E} (a : list A) (b : list B) (c : list C)
    (d : list D) (e : list E) : M (list (A * (B * (C * (D * E))))) :=
  if (same_length a b && same_length a c && same_length a d
      && same_length a e)%bool then
    ret (combine a (combine b (combine c (combine d e))))
  else raise (ValueError "All arrays must be of the same length").

(** ** The generator *)

Section Generator.
Context `{Platform}.

(** [__init__]: the three counts, then the seed of numpy's global state.
    ([random.seed(42)] seeds Python's own generator, from which no method
    draws.) *)
Definition init (customers products transactions : Z)
  : M EcommerceDataGenerator :=
  let self := mkGenerator customers products transactions in
  do _ <- np_random_seed 42;
  ret self.

Definition generate_customers (self : EcommerceDataGenerator)
  : M (list Customer) :=
  let segments := [Premium; Standard; Basic] in
  let regions := [North; South; East; West; Central] in
  let ids := range 1 (n_customers self + 1) in
  do segs <- choice_n segments (n_customers self)
               (Some [0.2; 0.5; 0.3]%Q);
  do regs <- choice_n regions (n_customers self) None;
  do dates <- date_range date_2022_01_01 date_2024_12_31 (n_customers self);
  do ages <- choice_n [Age18_25; Age26_35; Age36_45; Age46_55; Age55plus]
               (n_customers self) (Some [0.15; 0.25; 0.25; 0.20; 0.15]%Q);
  do rows <- DataFrame5 ids segs regs dates ages;
  ret (map (fun '(i, (s, (r, (d, a)))) => mkCustomer i s r d a) rows).

Definition generate_products (self : EcommerceDataGenerator)
  : M (list Product) :=
  let categories := [Electronics; Clothing; Books; Home; Sports; Beauty] in
  let ids := range 1 (n_products self + 1) in
  do cats <- choice_n categories (n_products self) None;
  do prices <- uniform 10 500 (n_products self);
  do costs <- uniform 5 300 (n_products self);
  do rows <- DataFrame4 ids cats prices costs;
  ret (map (fun '(i, (c, (b, k))) => mkProduct i c b k ((b - k) / b)%Q) rows).

Definition segment_weight (s : Segment) : Q :=
  match s with
  | Premium => 3.0
  | Standard => 2.0
  | Basic => 1.0
  end.

Definition price_multiplier (s : Segment) : Q :=
  match s with
  | Premium => 1.1
  | Standard => 1.0
  | Basic => 0.9
  end.

(** Lines 51-54: the selection weights, normalised. *)
Definition normalized_weights (customers : list Customer) : list Q :=
  let customer_weights :=
    map (fun c => segment_weight (customer_segment c)) customers in
  let total := Qsum customer_weights in
  map (fun x => (x / total)%Q) customer_weights.

(** The body of the loop at lines 56-85, for loop index [i]: the row it
    appends. *)
Definition transaction_row (customers : list Customer)
    (products : list Product) (customer_weights : list Q) (i : Z)
  : M Transaction :=
  do cid <- choice (map customer_id customers) (Some customer_weights);
  do seg <- iloc0 (map customer_segment
                     (filter (fun c => customer_id c =? cid) customers));
  do pid <- choice (map product_id products) None;
  do price <- iloc0 (map base_price
                       (filter (fun p => product_id p =? pid) products));
  let unit := (price * price_multiplier seg)%Q in
  do qty <- choice [1; 2; 3; 4; 5] (Some [0.5; 0.25; 0.15; 0.07; 0.03]%Q);
  do days_back <- exponential 30;
  do now <- datetime_now;
  let date := now - timedelta_days (py_min days_back 365) in
  do chan <- choice [Online; Store] (Some [0.7; 0.3]%Q);
  ret (mkTransaction (i + 1) cid pid qty (round2 unit)
         (round2 (inject_Z qty * unit)) date chan).

(** [for i in range(n): transactions.append(row)], with [todo] iterations
    left, the next index [i] and the list so far. *)
Fixpoint transaction_loop (customers : list Customer)
    (products : list Product) (customer_weights : list Q)
    (todo : nat) (i : Z) (transactions : list Transaction)
  : M (list Transaction) :=
  match todo with
  | O => ret transactions
  | S k =>
      do row <- transaction_row customers products customer_weights i;
      transaction_loop customers products customer_weights k (i + 1)
        (transactions ++ [row])
  end.

Definition generate_transactions (self : EcommerceDataGenerator)
    (customers : list Customer) (products : list Product)
  : M (list Transaction) :=
  let customer_weights := normalized_weights customers in
  transaction_loop customers products customer_weights
    (Z.to_nat (n_transactions self)) 0 [].

Definition generate_all_data (self : EcommerceDataGenerator)
  : M (list Customer * list Product * list Transaction) :=
  do customers <- generate_customers self;
  do products <- generate_products self;
  do transactions <- generate_transactions self customers products;
  ret (customers, products, transactions).

(** A run of the script: a fresh generator, then all tables. *)
Definition run (customers products transactions : Z)
  : M (list Customer * list Product * list Transaction) :=
  do generator <- init customers products transactions;
  generate_all_data generator.

End Generator.

(** ** Notions used in the statements *)

(** The world after [k] more variates and [j] more clock readings. *)
Definition shift (k j : nat) (w : World) : World :=
  mkWorld (mkRandomState (variates (np_random w)) (k + cursor (np_random w)))
          (wall_clock w) (j + clock_reads w).

(** The [k]-th variate ahead of the cursor, as a unit-interval number. *)
Definition variate_at (w : World) (k : nat) : Q :=
  unit_variate (variates (np_random w) (k + cursor (np_random w))).

(** The values [n] successive draws make of the variates ahead of the
    cursor, when one draw turns a variate [u] into [g u]. *)
Definition draws {A} (g : Q -> A) (n : nat) (w : World) : list A :=
  map (fun k => g (variate_at w k)) (seq 0 n).

(** The row of a table that a key refers to: the first one that carries it,
    as [df[df[key] == id].iloc[0]] finds it. *)
Definition customer_of (customers : list Customer) (id : Z) : option Customer :=
  find (fun c => customer_id c =? id) customers.

Definition product_of (products : list Product) (id : Z) : option Product :=
  find (fun p => product_id p =? id) products.

(** [drawn_row customers products i w row]: [row] is the row that the loop
    body builds for loop index [i] in world [w].  Its five draws are named by
    the position of their variate ahead of the cursor of [w]: customer 0,
    product 1, quantity 2, recency offset 3, channel 4; the clock is read
    once. *)
Record drawn_row `{Platform} (customers : list Customer)
    (products : list Product) (i : Z) (w : World) (row : Transaction)
  : Prop := {
  drawn_id : transaction_id row = i + 1;
  drawn_customer :
    nth_error (map customer_id customers)
      (index_of (length (map customer_id customers))
         (Some (normalized_weights customers)) (variate_at w 0))
    = Some (tx_customer_id row);
  drawn_product :
    nth_error (map product_id products)
      (index_of (length (map product_id products)) None (variate_at w 1))
    = Some (tx_product_id row);
  drawn_quantity :
    nth_error [1; 2; 3; 4; 5]
      (index_of 5 (Some [0.5; 0.25; 0.15; 0.07; 0.03]%Q) (variate_at w 2))
    = Some (quantity row);
  drawn_date :
    transaction_date row
    = wall_clock w (clock_reads w)
      - timedelta_days (py_min (neg_log1m (variate_at w 3) * 30) 365);
  drawn_channel :
    nth_error [Online; Store]
      (index_of 2 (Some [0.7; 0.3]%Q) (variate_at w 4))
    = Some (channel row);
  drawn_prices :
    exists c p,
      customer_of customers (tx_customer_id row) = Some c /\
      product_of products (tx_product_id row) = Some p /\
      let unit := (base_price p * price_multiplier (customer_segment c))%Q in
      unit_price row = round2 unit /\
      total_amount row = round2 (inject_Z (quantity row) * unit)
}.

(** Two transaction rows that agree in every column but the date. *)
Definition same_but_date (a b : Transaction) : Prop :=
  transaction_id a = transaction_id b /\
  tx_customer_id a = tx_customer_id b /\
  tx_product_id a = tx_product_id b /\
  quantity a = quantity b /\
  unit_price a = unit_price b /\
  total_amount a = total_amount b /\
  channel a = channel b.

(** A variate stream given by its first cells; zero afterwards. *)
Definition tape (cells : list N) : nat -> N :=
  fun i => nth i cells 0%N.

(** The first two terms of the series of [-log(1 - u)]; it stands for the
    logarithm where a statement is evaluated. *)
Definition series_neg_log1m (u : Q) : Q := (u + u * u / 2)%Q.

(** The platform whose stream is [tape cells], whatever the seed. *)
Definition tape_platform (cells : list N) : Platform.
Proof.
  refine {| seed_stream := fun _ => tape cells;
            neg_log1m := series_neg_log1m |}.
  intros u Hu _. unfold series_neg_log1m.
  assert (Hsq : (0 <= u * u / 2)%Q).
  { apply Qle_shift_div_l; [reflexivity |].
    rewrite Qmult_0_l. now apply Qmult_le_0_compat. }
  replace 0%Q with (0 + 0)%Q by reflexivity.
  now apply Qplus_le_compat.
Defined.

(** A world whose random state is at the start of [tape cells] and whose
    clock gives the listed readings (microseconds), then zero. *)
Definition world_of (cells : list N) (readings : list Z) : World :=
  mkWorld (mkRandomState (tape cells) 0) (fun i => nth i readings 0) 0.

(** A world before any seeding. *)
Definition world_at (readings : list Z) : World := world_of [] readings.

(** One customer per segment and one product at 100.00. *)
Definition three_customers : list Customer :=
  [mkCustomer 1 Premium North 0 Age18_25;
   mkCustomer 2 Standard South 0 Age26_35;
   mkCustomer 3 Basic East 0 Age36_45].

Definition one_product : list Product := [mkProduct 1 Books 100 60 0.4].

(** Variates for three sales, five per sale: the customer variates 0, 0.6
    and 0.9 select the three customers in turn; the third sale has the
    largest quantity variate and a recency variate of one half. *)
Definition three_sales : list N :=
  [0; 0; 0; 0; 0;
   5404319552844595; 0; 0; 0; 0;
   8106479329266893; 0; 9007199254740991; 4503599627370496; 0]%N.

(** A stream for one customer, one product and one sale.  In the order of
    the draws: segment (a half: Standard), region, age group, category,
    base price ([2^36 / 2^53]: [10 + 490 / 2^17], a little above 10.0037),
    cost, then for the sale: customer, product, quantity (the largest
    variate: 5), recency offset (none), channel. *)
Definition one_sale : list N :=
  [4503599627370496; 0; 0; 0; 68719476736; 0;
   0; 0; 9007199254740991; 0; 0]%N.



(** The world in which [__init__] leaves a run that started in [w]. *)
Definition seeded `{Platform} (w : World) : World :=
  mkWorld (mkRandomState (seed_stream 42) 0) (wall_clock w) (clock_reads w).

(** Worlds with one random state; their clocks may differ. *)
Definition same_random (w1 w2 : World) : Prop := np_random w1 = np_random w2.

(** [agree R m1 m2]: from worlds with one random state, [m1] and [m2] raise
    the same exception or return results related by [R], and leave worlds
    with one random state again. *)
Definition agree {A} (R : A -> A -> Prop) (m1 m2 : M A) : Prop :=
  forall w1 w2, same_random w1 w2 ->
    match m1 w1, m2 w2 with
    | Ok (a1, w1'), Ok (a2, w2') => R a1 a2 /\ same_random w1' w2'
    | Raise e1, Raise e2 => e1 = e2
    | _, _ => False
    end.

(** ** Saving: [save_data] and the script

    The file system and the console are a second state.  [to_csv] needs a
    writable path; the content it writes is kept as the table itself, not as
    its CSV text.  An exception leaves the files and lines written before
    it. *)

Inductive Csv :=
| CustomersCsv (rows : list Customer)
| ProductsCsv (rows : list Product)
| TransactionsCsv (rows : list Transaction).

Record Disk := mkDisk {
  can_write : string -> bool;
  files : list (string * Csv);
  stdout : list string
}.

Inductive SaveError :=
| OSError (path : string)
| KeyError (key : string).

Definition IO (A : Type) : Type := Disk -> (A + SaveError) * Disk.

Definition io_ret {A} (a : A) : IO A := fun d => (inl a, d).

Definition io_bind {A B} (m : IO A) (f : A -> IO B) : IO B :=
  fun d =>
    match m d with
    | (inl a, d') => f a d'
    | (inr e, d') => (inr e, d')
    end.

Notation "'io' x <- m ; k" := (io_bind m (fun x => k))
  (at level 10, x name, m at level 100, k at level 200).

(** [df.to_csv(path, index=False)]: the newest file comes first. *)
Definition to_csv (path : string) (table : Csv) : IO unit :=
  fun d =>
    if can_write d path then
      (inl tt, mkDisk (can_write d) ((path, table) :: files d) (stdout d))
    else (inr (OSError path), d).

(** [print(line)]. *)
Definition print (line : string) : IO unit :=
  fun d => (inl tt, mkDisk (can_write d) (files d) (stdout d ++ [line])).

(** The content of a path, if it was written. *)
Definition read_file (d : Disk) (path : string) : option Csv :=
  option_map snd (find (fun f => String.eqb (fst f) path) (files d)).

(** Thousands separators, on the digits from the least significant one;
    [k] digits of the current group are out. *)
Fixpoint commas_rev (digits : list ascii) (k : nat) : list ascii :=
  match digits with
  | [] => []
  | c :: r =>
      match k with
      | 3%nat => ","%char :: c :: commas_rev r 1
      | _ => c :: commas_rev r (S k)
      end
  end.

Definition with_commas (n : N) : string :=
  string_of_list_ascii
    (rev (commas_rev
            (rev (list_ascii_of_string (NilZero.string_of_uint (N.to_uint n))))
            0)).

(** [f"{n:,}"] for an integer. *)
Definition format_int (n : Z) : string :=
  let sign := if n <? 0 then "-"%string else ""%string in
  (sign ++ with_commas (Z.abs_N n))%string.

(** [f"{x:,.2f}"]: two decimals, the integer part with separators. *)
Definition format_money (x : Q) : string :=
  let cents := rint (x * 100) in
  let a := Z.abs_N cents in
  let frac := NilZero.string_of_uint (N.to_uint (a mod 100)) in
  let sign := if cents <? 0 then "-"%string else ""%string in
  let pad := if (a mod 100 <? 10)%N then "0"%string else ""%string in
  (sign ++ with_commas (a / 100) ++ "." ++ pad ++ frac)%string.

(** [transactions['total_amount'].sum()]: the table made of no row has no
    column. *)
Definition total_amount_sum (transactions : list Transaction) : IO Q :=
  fun d =>
    match transactions with
    | [] => (inr (KeyError "total_amount"), d)
    | _ :: _ => (inl (Qsum (map total_amount transactions)), d)
    end.

Definition save_data (customers : list Customer) (products : list Product)
    (transactions : list Transaction) (folder : string) : IO unit :=
  io _ <- to_csv (folder ++ "customers.csv") (CustomersCsv customers);
  io _ <- to_csv (folder ++ "products.csv") (ProductsCsv products);
  io _ <- to_csv (folder ++ "transactions.csv") (TransactionsCsv transactions);
  io _ <- print "Data generated and saved:";
  io _ <- print ("- Customers: " ++ format_int (Z.of_nat (length customers)));
  io _ <- print ("- Products: " ++ format_int (Z.of_nat (length products)));
  io _ <- print ("- Transactions: "
                 ++ format_int (Z.of_nat (length transactions)));
  io revenue <- total_amount_sum transactions;
  print ("- Total Revenue: $" ++ format_money revenue).

(** How a run of the script ends. *)
Inductive ScriptOutcome :=
| Completed
| GenerationRaised (e : Exception)
| SavingRaised (e : SaveError).

(** The script with the three counts given: generate, then save to the
    default folder. *)
Definition script_with `{Platform} (customers products transactions : Z)
    (w : World) (d : Disk) : ScriptOutcome * Disk :=
  match run customers products transactions w with
  | Raise e => (GenerationRaised e, d)
  | Ok ((cs, ps, txs), _) =>
      match save_data cs ps txs "../data/" d with
      | (inl _, d') => (Completed, d')
      | (inr e, d') => (SavingRaised e, d')
      end
  end.

(** The script as written: the default counts of [__init__]. *)
Definition script `{Platform} (w : World) (d : Disk) : ScriptOutcome * Disk :=
  script_with 2000 200 10000 w d.

(** An empty disk on which every path can be written. *)
Definition empty_disk : Disk := mkDisk (fun _ => true) [] [].

(** * The practice script [fundamentals_review.py]

    Its computing part: the function [analyze_grades] and the class
    [StudentAnalyzer], both local to [functions_and_classes].  A dict is the
    list of its items in insertion order (the keys of a Python dict are
    pairwise distinct; nothing below relies on it).  A student's info dict
    with the keys ['grade'] and ['major'] is a record; the grade may be
    [None].  Division is the exact one, as for the generator. *)

Module Fundamentals.

(** The dict that [analyze_grades] returns. *)
Record GradeStats := mkStats {
  count : Z;
  average : Q;
  highest : Z;
  lowest : Z;
  passing_rate : Q
}.

(** [sum(l)]. *)
Definition py_sum (l : list Z) : Z := fold_left Z.add l 0.

(** [analyze_grades(grades)] for a list of integers: [None] for the empty
    list. *)
Definition analyze_grades (grades : list Z) : option GradeStats :=
  match grades with
  | [] => None
  | g :: rest =>
      let n := Z.of_nat (length grades) in
      let passing :=
        py_sum (map (fun _ => 1) (filter (fun g => 70 <=? g) grades)) in
      Some (mkStats n
              (inject_Z (py_sum grades) / inject_Z n)
              (fold_left Z.max rest g)
              (fold_left Z.min rest g)
              (inject_Z passing / inject_Z n * 100)%Q)
  end.

Record StudentInfo := mkInfo {
  grade : option Z;
  major : string
}.

Definition StudentData : Type := list (string * StudentInfo).

(** The attributes of a [StudentAnalyzer]. *)
Record StudentAnalyzer := mkAnalyzer {
  data : StudentData;
  processed_data : option StudentData
}.

(** [StudentAnalyzer(data)]. *)
Definition new_analyzer (d : StudentData) : StudentAnalyzer :=
  mkAnalyzer d None.

(** [info['grade'] is not None and 0 <= info['grade'] <= 100]. *)
Definition valid_grade (info : StudentInfo) : bool :=
  match grade info with
  | None => false
  | Some g => (0 <=? g) && (g <=? 100)
  end.

(** [clean_data]: sets [processed_data] and returns the analyzer. *)
Definition clean_data (self : StudentAnalyzer) : StudentAnalyzer :=
  mkAnalyzer (data self)
    (Some (filter (fun item => valid_grade (snd item)) (data self))).

(** [not self.processed_data]: true for [None] and for the empty dict. *)
Definition falsy (d : option StudentData) : bool :=
  match d with
  | None => true
  | Some [] => true
  | Some (_ :: _) => false
  end.

(** [if not self.processed_data: self.clean_data()]. *)
Definition ensure_clean (self : StudentAnalyzer) : StudentAnalyzer :=
  if falsy (processed_data self) then clean_data self else self.

(** [self.processed_data.values()]. *)
Definition processed_values (self : StudentAnalyzer) : list StudentInfo :=
  match processed_data self with
  | Some d => map snd d
  | None => []
  end.

(** What a method call gives: a value, or the [TypeError] that arithmetic on
    [None] raises. *)
Inductive Outcome (A : Type) :=
| Returned (a : A)
| TypeError.
Arguments Returned {A} a.
Arguments TypeError {A}.

(** The grades as numbers, if none of them is [None]. *)
Fixpoint numbers (grades : list (option Z)) : option (list Z) :=
  match grades with
  | [] => Some []
  | None :: _ => None
  | Some g :: r =>
      match numbers r with
      | Some l => Some (g :: l)
      | None => None
      end
  end.

(** [get_statistics]: the statistics and the analyzer as the call leaves
    it.  A [None] among the grades makes [sum] raise. *)
Definition get_statistics (self : StudentAnalyzer)
  : Outcome (option GradeStats) * StudentAnalyzer :=
  let self := ensure_clean self in
  let grades := map grade (processed_values self) in
  (match numbers grades with
   | Some l => Returned (analyze_grades l)
   | None => TypeError
   end, self).

(** [d.get(k, default)] and [d[k] = v] on a dict of counts. *)
Definition dict_get (d : list (string * Z)) (k : string) (default : Z) : Z :=
  match find (fun kv => String.eqb (fst kv) k) d with
  | Some kv => snd kv
  | None => default
  end.

Fixpoint dict_set (d : list (string * Z)) (k : string) (v : Z)
  : list (string * Z) :=
  match d with
  | [] => [(k, v)]
  | (k', v') :: r =>
      if String.eqb k' k then (k', v) :: r else (k', v') :: dict_set r k v
  end.

(** The loop of [get_major_distribution] over the infos. *)
Definition count_majors (infos : list StudentInfo)
    (major_counts : list (string * Z)) : list (string * Z) :=
  fold_left
    (fun counts info =>
       dict_set counts (major info) (dict_get counts (major info) 0 + 1))
    infos major_counts.

Definition get_major_distribution (self : StudentAnalyzer)
  : list (string * Z) * StudentAnalyzer :=
  let self := ensure_clean self in
  (count_majors (processed_values self) [], self).

(** The analyzers that [__init__] and the methods produce: nothing is
    processed yet, or the processed data are the valid entries of the
    data. *)
Definition consistent (self : StudentAnalyzer) : Prop :=
  processed_data self = None \/
  processed_data self
  = Some (filter (fun item => valid_grade (snd item)) (data self)).

(** The [student_data] that [data_structures_review] returns. *)
Definition student_data : StudentData :=
  [("Alice"%string, mkInfo (Some 85) "CS");
   ("Bob"%string, mkInfo (Some 92) "Data Science");
   ("Charlie"%string, mkInfo (Some 78) "Engineering")].

End Fundamentals.

(** ** Numbers: rounding and ranges *)

Lemma unit_variate_range (k : N) :
  (0 <= unit_variate k)%Q /\ (unit_variate k < 1)%Q.
Proof.
  assert (Hlt : (k mod N.pos two53 < N.pos two53)%N)
    by (apply N.mod_lt; discriminate).
  unfold unit_variate, Qle, Qlt; simpl.
  set (r := (k mod N.pos two53)%N) in *. clearbody r.
  unfold two53 in *. split; lia.
Qed.

Lemma rint_floor_or_next (x : Q) : rint x = Qfloor x \/ rint x = Qfloor x + 1.
Proof.
  unfold rint.
  destruct (Qcompare (x - inject_Z (Qfloor x)) (1 # 2)); auto.
  destruct (Z.even (Qfloor x)); auto.
Qed.

Lemma rint_lower (x : Q) (lo : Z) : (inject_Z lo <= x)%Q -> lo <= rint x.
Proof.
  intros Hx.
  assert (Hf : lo <= Qfloor x).
  { rewrite <- (Qfloor_Z lo). now apply Qfloor_resp_le. }
  destruct (rint_floor_or_next x) as [-> | ->]; lia.
Qed.

Lemma rint_upper (x : Q) (hi : Z) : (x <= inject_Z hi)%Q -> rint x <= hi.
Proof.
  intros Hx.
  assert (Hf : Qfloor x <= hi).
  { rewrite <- (Qfloor_Z hi). now apply Qfloor_resp_le. }
  destruct (Z.eq_dec (Qfloor x) hi) as [Heq | Hne].
  - (* the floor is already [hi]: the fraction is zero, no rounding up *)
    assert (Hfrac : (x - inject_Z (Qfloor x) < 1 # 2)%Q).
    { rewrite Heq.
      apply Qle_lt_trans with (y := 0%Q); [| reflexivity].
      apply (Qplus_le_l _ _ (inject_Z hi)). ring_simplify. exact Hx. }
    unfold rint. cbv zeta.
    destruct (Qcompare_spec (x - inject_Z (Qfloor x)) (1 # 2)) as [E | E | E].
    + rewrite E in Hfrac. now apply Qlt_irrefl in Hfrac.
    + lia.
    + exfalso. apply (Qlt_irrefl (1 # 2)). now apply Qlt_trans with (2 := Hfrac).
  - destruct (rint_floor_or_next x) as [-> | ->]; lia.
Qed.

Lemma py_min_range (d : Q) :
  (0 <= d)%Q -> (0 <= py_min d 365)%Q /\ (py_min d 365 <= 365)%Q.
Proof.
  intros Hd. unfold py_min.
  destruct (Qle_bool d 365) eqn:E.
  - apply Qle_bool_iff in E. now split.
  - split; [discriminate | apply Qle_refl].
Qed.

(** The offset of a draw [d >= 0]: between zero and 365 days. *)
Lemma offset_range (d : Q) :
  (0 <= d)%Q ->
  0 <= timedelta_days (py_min d 365) <= 365 * microseconds_per_day.
Proof.
  intros Hd. destruct (py_min_range d Hd) as [H0 H365].
  unfold timedelta_days. split.
  - apply rint_lower.
    change (inject_Z 0) with (0 * inject_Z microseconds_per_day)%Q.
    apply Qmult_le_compat_r; [exact H0 | discriminate].
  - apply rint_upper. rewrite inject_Z_mult.
    apply Qmult_le_compat_r; [exact H365 | discriminate].
Qed.

(** ** The definitions on a few inputs *)

Example round2_down : round2 10.004 = Qmake 1000 100.
Proof. reflexivity. Qed.

Example round2_up : round2 50.0187 = Qmake 5002 100.
Proof. reflexivity. Qed.

Example rint_ties_to_even : rint (5 # 2) = 2 /\ rint (7 # 2) = 4.
Proof. split; reflexivity. Qed.

Example py_min_clamps : py_min 400 365 = 365%Q /\ py_min 12.5 365 = 12.5%Q.
Proof. split; reflexivity. Qed.

Example timedelta_one_day : timedelta_days 1 = 86400000000.
Proof. reflexivity. Qed.

Example range_1_4 : range 1 4 = [1; 2; 3].
Proof. reflexivity. Qed.

Example segment_index :
  index_of 3 (Some [0.2; 0.5; 0.3]%Q) 0.1 = 0%nat /\
  index_of 3 (Some [0.2; 0.5; 0.3]%Q) 0.2 = 1%nat /\
  index_of 3 (Some [0.2; 0.5; 0.3]%Q) 0.95 = 2%nat.
Proof. repeat split; reflexivity. Qed.

Example region_index : index_of 5 None 0.65 = 3%nat.
Proof. reflexivity. Qed.

Example weights_of_three_customers :
  Forall2 Qeq (normalized_weights three_customers) [1 # 2; 1 # 3; 1 # 6].
Proof. repeat constructor; reflexivity. Qed.

Example registration_dates :
  date_range date_2022_01_01 date_2024_12_31 3 (world_of [] [])
  = Ok ([date_2022_01_01;
         date_2022_01_01 + 1095 * nanoseconds_per_day / 2;
         date_2024_12_31], world_of [] []).
Proof. vm_compute. reflexivity. Qed.

(** ** The monad and the world *)

(** Closes a goal with a hypothesis that equates a raised exception with a
    result. *)
Ltac raised H := unfold raise, ret in H; cbv beta in H; discriminate H.

Lemma bind_Ok {A B} (m : M A) (f : A -> M B) (w w2 : World) (b : B) :
  bind m f w = Ok (b, w2) ->
  exists a w1, m w = Ok (a, w1) /\ f a w1 = Ok (b, w2).
Proof.
  unfold bind. destruct (m w) as [[a w1] | e]; [| discriminate].
  intros Hf. now exists a, w1.
Qed.

Lemma bind_step {A B} (m : M A) (f : A -> M B) (w w1 : World) (a : A) :
  m w = Ok (a, w1) -> bind m f w = f a w1.
Proof. unfold bind. now intros ->. Qed.

Lemma bind_raise {A B} (m : M A) (f : A -> M B) (w : World) (e : Exception) :
  m w = Raise e -> bind m f w = Raise e.
Proof. unfold bind. now intros ->. Qed.

Lemma shift_0 (w : World) : shift 0 0 w = w.
Proof. now destruct w as [[v c] clk r]. Qed.

Lemma shift_shift (k1 j1 k2 j2 : nat) (w : World) :
  shift k1 j1 (shift k2 j2 w) = shift (k2 + k1) (j2 + j1) w.
Proof.
  unfold shift; simpl. f_equal; [f_equal |]; lia.
Qed.

Lemma variate_at_shift (k j i : nat) (w : World) :
  variate_at (shift k j w) i = variate_at w (k + i).
Proof.
  unfold variate_at, shift; simpl. do 2 f_equal. lia.
Qed.

Lemma wall_clock_shift (k j : nat) (w : World) :
  wall_clock (shift k j w) = wall_clock w.
Proof. reflexivity. Qed.

Lemma variate_at_range (w : World) (k : nat) :
  (0 <= variate_at w k)%Q /\ (variate_at w k < 1)%Q.
Proof. apply unit_variate_range. Qed.

(** ** Draws *)

Lemma random_sample_eq (w : World) :
  random_sample w = Ok (variate_at w 0, shift 1 0 w).
Proof. reflexivity. Qed.

Lemma choice_index_eq (n : nat) (p : option (list Q)) (w : World) :
  choice_index n p w = Ok (index_of n p (variate_at w 0), shift 1 0 w).
Proof. reflexivity. Qed.

Lemma datetime_now_eq (w : World) :
  datetime_now w = Ok (wall_clock w (clock_reads w), shift 0 1 w).
Proof. now destruct w as [[v c] clk r]. Qed.

Lemma exponential_eq `{Platform} (scale : Q) (w : World) :
  exponential scale w = Ok ((neg_log1m (variate_at w 0) * scale)%Q, shift 1 0 w).
Proof. reflexivity. Qed.

(** The argument checks do not look at the world, and do not change it. *)
Lemma choice_checks_cases {A} (a : list A) (b : bool) (p : option (list Q)) :
  (forall w, choice_checks a b p w = Ok (tt, w)) \/
  (exists msg, forall w, choice_checks a b p w = Raise (ValueError msg)).
Proof.
  unfold choice_checks.
  destruct (Nat.eqb (length a) 0 && negb b)%bool; [right; eexists; reflexivity |].
  destruct p as [p |]; [| now left].
  destruct (negb (Nat.eqb (length p) (length a))); [right; eexists; reflexivity |].
  destruct (existsb _ p); [right; eexists; reflexivity |].
  destruct (negb (Qle_bool _ atol)); [right; eexists; reflexivity | now left].
Qed.

Lemma choice_checks_Ok {A} (a : list A) (b : bool) (p : option (list Q))
    (w w' : World) (x : unit) :
  choice_checks a b p w = Ok (x, w') ->
  forall w0, choice_checks a b p w0 = Ok (tt, w0).
Proof.
  intros Hok. destruct (choice_checks_cases a b p) as [Hall | [msg Hall]].
  - exact Hall.
  - rewrite Hall in Hok. discriminate.
Qed.

Lemma take_Ok {A} (a : list A) (i : nat) (w w' : World) (x : A) :
  take a i w = Ok (x, w') -> w' = w /\ nth_error a i = Some x.
Proof.
  unfold take. destruct (nth_error a i) as [y |]; [| discriminate].
  unfold ret. intros [= -> ->]. now split.
Qed.

Lemma take_lt {A} (a : list A) (i : nat) (w : World) :
  (i < length a)%nat -> exists x, take a i w = Ok (x, w) /\ nth_error a i = Some x.
Proof.
  intros Hi. unfold take.
  destruct (nth_error a i) as [y |] eqn:E.
  - now exists y.
  - apply nth_error_None in E. lia.
Qed.

(** ** The index a variate selects lies inside the population *)

Lemma uniform_index_lt (n : nat) (u : Q) :
  (0 < n)%nat -> (u < 1)%Q -> (uniform_index n u < n)%nat.
Proof.
  intros Hn Hu. unfold uniform_index.
  set (x := (u * inject_Z (Z.of_nat n))%Q).
  assert (Hx : (x < inject_Z (Z.of_nat n))%Q).
  { unfold x.
    rewrite <- (Qmult_1_l (inject_Z (Z.of_nat n))) at 2.
    apply Qmult_lt_compat_r; [| exact Hu].
    change 0%Q with (inject_Z 0). rewrite <- Zlt_Qlt. lia. }
  assert (Hf : Qfloor x < Z.of_nat n).
  { rewrite Zlt_Qlt. apply Qle_lt_trans with (y := x); [apply Qfloor_le | exact Hx]. }
  lia.
Qed.

Lemma searchsorted_lt (c : list Q) (u : Q) :
  c <> [] -> (u < last c 0)%Q -> (searchsorted_right c u < length c)%nat.
Proof.
  induction c as [| x r IH]; [congruence |].
  intros _ Hu. cbn [searchsorted_right length].
  destruct (Qle_bool x u) eqn:E; [| lia].
  apply Qle_bool_iff in E.
  destruct r as [| y r'].
  - simpl in Hu. exfalso. apply (Qlt_irrefl u).
    now apply Qlt_le_trans with (y := x).
  - apply -> Nat.succ_lt_mono. apply IH; [discriminate | exact Hu].
Qed.

Lemma last_cumsum_from (p : list Q) (acc d : Q) :
  p <> [] -> (last (cumsum_from acc p) d == acc + Qsum p)%Q.
Proof.
  revert acc. induction p as [| x r IH]; [congruence |].
  intros acc _. destruct r as [| y r'].
  - simpl. ring.
  - change (last (cumsum_from acc (x :: y :: r')) d)
      with (last (cumsum_from (acc + x) (y :: r')) d).
    rewrite IH by discriminate. simpl. ring.
Qed.

Lemma last_map_nonempty {A B} (f : A -> B) (l : list A) (d : A) (e : B) :
  l <> [] -> last (map f l) e = f (last l d).
Proof.
  induction l as [| x r IH]; [congruence |].
  intros _. destruct r as [| y r']; [reflexivity |].
  change (last (map f (x :: y :: r')) e) with (last (map f (y :: r')) e).
  change (last (x :: y :: r') d) with (last (y :: r') d).
  apply IH. discriminate.
Qed.

Lemma cumsum_from_length (p : list Q) (acc : Q) :
  length (cumsum_from acc p) = length p.
Proof.
  revert acc. induction p as [| x r IH]; intros acc; simpl; [| rewrite IH]; reflexivity.
Qed.

Lemma cdf_of_length (p : list Q) : length (cdf_of p) = length p.
Proof. unfold cdf_of. now rewrite length_map, cumsum_from_length. Qed.

(** With a positive total the normalised CDF ends in one. *)
Lemma last_cdf_of (p : list Q) :
  p <> [] -> (0 < Qsum p)%Q -> (last (cdf_of p) 0 == 1)%Q.
Proof.
  intros Hp Hpos. unfold cdf_of.
  assert (Hc : cumsum_from 0 p <> []).
  { destruct p; [congruence | discriminate]. }
  rewrite (last_map_nonempty _ _ 0%Q 0%Q Hc).
  rewrite (last_cumsum_from p 0 0 Hp).
  field. intros E. rewrite E in Hpos.
  now apply Qlt_irrefl in Hpos.
Qed.

Lemma near_one_positive (s : Q) :
  Qle_bool (Qabs (s - 1)) atol = true -> (0 < s)%Q.
Proof.
  intros E. apply Qle_bool_iff in E. apply Qabs_Qle_condition in E.
  destruct E as [Hlo _].
  apply Qlt_le_trans with (y := (1 - atol)%Q); [reflexivity |].
  apply (Qplus_le_l _ _ (- (1))%Q). ring_simplify.
  ring_simplify in Hlo. exact Hlo.
Qed.

Lemma weighted_index_lt (p : list Q) (u : Q) :
  p <> [] -> Qle_bool (Qabs (Qsum p - 1)) atol = true -> (u < 1)%Q ->
  (searchsorted_right (cdf_of p) u < length p)%nat.
Proof.
  intros Hp Hsum Hu. rewrite <- (cdf_of_length p).
  apply searchsorted_lt.
  - intros E. apply (f_equal (@length Q)) in E.
    rewrite cdf_of_length in E. destruct p; [congruence | discriminate].
  - rewrite (last_cdf_of p Hp (near_one_positive _ Hsum)). exact Hu.
Qed.

Lemma index_in_range {A} (a : list A) (b : bool) (p : option (list Q))
    (w : World) (u : Q) :
  a <> [] -> choice_checks a b p w = Ok (tt, w) -> (u < 1)%Q ->
  (index_of (length a) p u < length a)%nat.
Proof.
  intros Ha Hchk Hu.
  assert (Hlen : (0 < length a)%nat) by (destruct a; [congruence | simpl; lia]).
  destruct p as [p |]; [| now apply uniform_index_lt].
  unfold choice_checks in Hchk.
  destruct (Nat.eqb (length a) 0 && negb b)%bool; [raised Hchk |].
  destruct (Nat.eqb (length p) (length a)) eqn:El;
    cbn [negb] in Hchk; [| raised Hchk].
  apply Nat.eqb_eq in El.
  destruct (existsb _ p); [raised Hchk |].
  destruct (Qle_bool (Qabs (Qsum p - 1)) atol) eqn:Es;
    cbn [negb] in Hchk; [| raised Hchk].
  simpl. rewrite <- El. apply weighted_index_lt; auto.
  intros ->. simpl in El. lia.
Qed.

(** ** Scalar and array draws *)

Lemma choice_Ok {A} (a : list A) (p : option (list Q)) (w w' : World) (x : A) :
  choice a p w = Ok (x, w') ->
  w' = shift 1 0 w /\
  nth_error a (index_of (length a) p (variate_at w 0)) = Some x /\
  (forall w0, choice_checks a false p w0 = Ok (tt, w0)).
Proof.
  unfold choice. intros Hc.
  apply bind_Ok in Hc as (u & w1 & Hchk & Hc).
  pose proof (choice_checks_Ok _ _ _ _ _ _ Hchk) as Hall.
  rewrite Hall in Hchk. injection Hchk as _ <-.
  apply bind_Ok in Hc as (i & w2 & Hi & Ht).
  rewrite choice_index_eq in Hi. injection Hi as <- <-.
  apply take_Ok in Ht as [-> Hn]. auto.
Qed.

Lemma choice_success {A} (a : list A) (p : option (list Q)) (w : World) :
  a <> [] -> choice_checks a false p w = Ok (tt, w) ->
  exists x, choice a p w = Ok (x, shift 1 0 w) /\
            nth_error a (index_of (length a) p (variate_at w 0)) = Some x.
Proof.
  intros Ha Hchk.
  destruct (take_lt a (index_of (length a) p (variate_at w 0)) (shift 1 0 w))
    as (x & Ht & Hn).
  { apply (index_in_range a false p w); auto. apply variate_at_range. }
  exists x. split; [| exact Hn].
  unfold choice. rewrite (bind_step _ _ _ _ _ Hchk).
  now rewrite (bind_step _ _ _ _ _ (choice_index_eq _ _ _)).
Qed.

Lemma choice_empty {A} (p : option (list Q)) (w : World) :
  exists msg, choice (@nil A) p w = Raise (ValueError msg).
Proof. eexists. reflexivity. Qed.

Lemma draws_length {A} (g : Q -> A) (n : nat) (w : World) :
  length (draws g n w) = n.
Proof. unfold draws. now rewrite length_map, length_seq. Qed.

Lemma draws_nth {A} (g : Q -> A) (n k : nat) (w : World) :
  (k < n)%nat -> nth_error (draws g n w) k = Some (g (variate_at w k)).
Proof.
  intros Hk. unfold draws.
  rewrite nth_error_map, nth_error_seq.
  destruct (Nat.ltb_spec k n); [reflexivity | lia].
Qed.

Lemma draws_succ {A} (g : Q -> A) (n : nat) (w : World) :
  draws g (S n) w = g (variate_at w 0) :: draws g n (shift 1 0 w).
Proof.
  unfold draws. cbn [seq map]. f_equal.
  rewrite <- seq_shift, map_map. apply map_ext.
  intros k. now rewrite variate_at_shift.
Qed.

Lemma replicateM_draw {A} (m : M A) (g : Q -> A) :
  (forall w, m w = Ok (g (variate_at w 0), shift 1 0 w)) ->
  forall n w, replicateM n m w = Ok (draws g n w, shift n 0 w).
Proof.
  intros Hm. induction n as [| n IH]; intros w.
  - cbn. unfold ret. now rewrite shift_0.
  - cbn [replicateM]. rewrite (bind_step _ _ _ _ _ (Hm w)).
    rewrite (bind_step _ _ _ _ _ (IH _)).
    unfold ret. now rewrite shift_shift, draws_succ.
Qed.

Lemma sized_draw {A} (m : M A) (g : Q -> A) (n : Z) (w : World) :
  (forall w, m w = Ok (g (variate_at w 0), shift 1 0 w)) ->
  sized n m w =
  if n <? 0 then Raise (ValueError "negative dimensions are not allowed")
  else Ok (draws g (Z.to_nat n) w, shift (Z.to_nat n) 0 w).
Proof.
  intros Hm. unfold sized. destruct (n <? 0); [reflexivity |].
  now apply replicateM_draw.
Qed.

Lemma uniform_eq (low high : Q) (n : Z) (w : World) :
  uniform low high n w =
  if n <? 0 then Raise (ValueError "negative dimensions are not allowed")
  else Ok (draws (fun u => low + (high - low) * u)%Q (Z.to_nat n) w,
           shift (Z.to_nat n) 0 w).
Proof. unfold uniform. now apply sized_draw. Qed.


Lemma mapM_take_lt {A} (a : list A) (l : list nat) (w : World) :
  Forall (fun i => (i < length a)%nat) l ->
  exists ys, mapM (take a) l w = Ok (ys, w) /\
             Forall2 (fun i y => nth_error a i = Some y) l ys.
Proof.
  induction 1 as [| i l Hi _ (ys & Hm & Hall)].
  - exists []. split; [reflexivity | constructor].
  - destruct (take_lt a i w Hi) as (y & Ht & Hy).
    exists (y :: ys). split; [| now constructor].
    cbn [mapM]. rewrite (bind_step _ _ _ _ _ Ht).
    now rewrite (bind_step _ _ _ _ _ Hm).
Qed.


Lemma choice_n_success {A} (a : list A) (n : Z) (p : option (list Q))
    (w : World) :
  a <> [] -> 0 <= n -> choice_checks a (n =? 0) p w = Ok (tt, w) ->
  exists xs, choice_n a n p w = Ok (xs, shift (Z.to_nat n) 0 w) /\
             Forall2 (fun i y => nth_error a i = Some y)
                     (draws (index_of (length a) p) (Z.to_nat n) w) xs.
Proof.
  intros Ha Hn Hchk.
  destruct (mapM_take_lt a (draws (index_of (length a) p) (Z.to_nat n) w)
              (shift (Z.to_nat n) 0 w)) as (xs & Hm & HF).
  { unfold draws. apply Forall_map, Forall_forall. intros k _.
    apply (index_in_range a (n =? 0) p w); auto. apply variate_at_range. }
  exists xs. split; [| exact HF].
  unfold choice_n. rewrite (bind_step _ _ _ _ _ Hchk).
  assert (Hs : sized n (choice_index (length a) p) w =
               Ok (draws (index_of (length a) p) (Z.to_nat n) w,
                   shift (Z.to_nat n) 0 w)).
  { rewrite (sized_draw _ (index_of (length a) p)) by apply choice_index_eq.
    destruct (Z.ltb_spec n 0); [lia | reflexivity]. }
  now rewrite (bind_step _ _ _ _ _ Hs).
Qed.

Lemma choice_n_negative {A} (a : list A) (n : Z) (p : option (list Q))
    (w : World) :
  n < 0 -> exists msg, choice_n a n p w = Raise (ValueError msg).
Proof.
  intros Hn. unfold choice_n.
  destruct (choice_checks_cases a (n =? 0) p) as [Hall | [msg Hall]].
  - rewrite (bind_step _ _ _ _ _ (Hall w)).
    eexists. apply bind_raise.
    rewrite (sized_draw _ (index_of (length a) p)) by apply choice_index_eq.
    destruct (Z.ltb_spec n 0); [reflexivity | lia].
  - exists msg. apply bind_raise, Hall.
Qed.

(** ** Tables from columns *)

Lemma map_fst_combine {A B} (a : list A) (b : list B) :
  length a = length b -> map fst (combine a b) = a.
Proof.
  revert b. induction a as [| x a IH]; intros [| y b] Hl; simpl in *;
    try congruence.
  f_equal. apply IH. lia.
Qed.

Lemma map_snd_combine {A B} (a : list A) (b : list B) :
  length a = length b -> map snd (combine a b) = b.
Proof.
  revert b. induction a as [| x a IH]; intros [| y b] Hl; simpl in *;
    try congruence.
  f_equal. apply IH. lia.
Qed.

Lemma range_length (lo hi : Z) : length (range lo hi) = Z.to_nat (hi - lo).
Proof. unfold range. now rewrite length_map, length_seq. Qed.

Lemma range_In (lo hi i : Z) : In i (range lo hi) <-> lo <= i < hi.
Proof.
  unfold range. rewrite in_map_iff. split.
  - intros (k & <- & Hk). apply in_seq in Hk. lia.
  - intros Hi. exists (Z.to_nat (i - lo)). split; [lia |].
    apply in_seq. lia.
Qed.

Lemma range_NoDup (lo hi : Z) : NoDup (range lo hi).
Proof.
  unfold range. apply NoDup_map_NoDup_ForallPairs; [| apply seq_NoDup].
  intros x y _ _ E. lia.
Qed.

Lemma same_length_true {A B} (a : list A) (b : list B) :
  length a = length b -> same_length a b = true.
Proof. intros E. unfold same_length. now apply Nat.eqb_eq. Qed.

Lemma DataFrame4_eq {A B C D} (a : list A) (b : list B) (c : list C)
    (d : list D) (w : World) :
  length a = length b -> length a = length c -> length a = length d ->
  DataFrame4 a b c d w = Ok (combine a (combine b (combine c d)), w).
Proof.
  intros Hb Hc Hd. unfold DataFrame4.
  now rewrite !same_length_true.
Qed.

Lemma DataFrame5_eq {A B C D E} (a : list A) (b : list B) (c : list C)
    (d : list D) (e : list E) (w : World) :
  length a = length b -> length a = length c -> length a = length d ->
  length a = length e ->
  DataFrame5 a b c d e w =
  Ok (combine a (combine b (combine c (combine d e))), w).
Proof.
  intros Hb Hc Hd He. unfold DataFrame5.
  now rewrite !same_length_true.
Qed.

Lemma date_range_eq (start stop periods : Z) (w : World) :
  0 <= periods ->
  exists dates, date_range start stop periods w = Ok (dates, w) /\
                length dates = Z.to_nat periods.
Proof.
  intros Hp. unfold date_range.
  destruct (Z.ltb_spec periods 0); [lia |].
  eexists. split; [reflexivity |].
  rewrite length_map, range_length. f_equal. lia.
Qed.

Lemma uniform_nonneg (low high : Q) (n : Z) (w : World) :
  0 <= n ->
  uniform low high n w =
  Ok (draws (fun u => low + (high - low) * u)%Q (Z.to_nat n) w,
      shift (Z.to_nat n) 0 w).
Proof.
  intros Hn. rewrite uniform_eq.
  destruct (Z.ltb_spec n 0); [lia | reflexivity].
Qed.

(** ** The customer and the product generator *)

Lemma generate_customers_success (self : EcommerceDataGenerator) (w : World) :
  0 <= n_customers self ->
  exists customers,
    generate_customers self w =
      Ok (customers, shift (3 * Z.to_nat (n_customers self)) 0 w) /\
    map customer_id customers = range 1 (n_customers self + 1).
Proof.
  intros HN. set (n := Z.to_nat (n_customers self)).
  unfold generate_customers.
  destruct (choice_n_success [Premium; Standard; Basic] (n_customers self)
              (Some [0.2; 0.5; 0.3]%Q) w) as (segs & Hsegs & Fsegs);
    [discriminate | exact HN | reflexivity |].
  rewrite (bind_step _ _ _ _ _ Hsegs).
  destruct (choice_n_success [North; South; East; West; Central]
              (n_customers self) None (shift n 0 w)) as (regs & Hregs & Fregs);
    [discriminate | exact HN | reflexivity |].
  rewrite (bind_step _ _ _ _ _ Hregs).
  destruct (date_range_eq date_2022_01_01 date_2024_12_31 (n_customers self)
              (shift n 0 (shift n 0 w)) HN) as (dates & Hdates & Ldates).
  rewrite (bind_step _ _ _ _ _ Hdates).
  destruct (choice_n_success
              [Age18_25; Age26_35; Age36_45; Age46_55; Age55plus]
              (n_customers self) (Some [0.15; 0.25; 0.25; 0.20; 0.15]%Q)
              (shift n 0 (shift n 0 w))) as (ages & Hages & Fages);
    [discriminate | exact HN | reflexivity |].
  rewrite (bind_step _ _ _ _ _ Hages).
  apply Forall2_length in Fsegs, Fregs, Fages.
  rewrite draws_length in Fsegs, Fregs, Fages.
  assert (Lids : length (range 1 (n_customers self + 1)) = n).
  { rewrite range_length. unfold n. f_equal. lia. }
  subst n.
  rewrite (bind_step _ _ _ _ _
             (DataFrame5_eq (range 1 (n_customers self + 1))
                segs regs dates ages _
                ltac:(congruence) ltac:(congruence) ltac:(congruence)
                ltac:(congruence))).
  eexists. split.
  - unfold ret. rewrite !shift_shift.
    apply f_equal, f_equal2; [reflexivity | f_equal; lia].
  - rewrite map_map.
    rewrite <- (map_fst_combine (range 1 (n_customers self + 1))
                  (combine segs (combine regs (combine dates ages)))) at 2.
    + apply map_ext. now intros (i & s & r & d & a).
    + rewrite !length_combine. lia.
Qed.

Lemma generate_customers_negative (self : EcommerceDataGenerator) (w : World) :
  n_customers self < 0 ->
  exists msg, generate_customers self w = Raise (ValueError msg).
Proof.
  intros HN. unfold generate_customers.
  destruct (choice_n_negative [Premium; Standard; Basic] (n_customers self)
              (Some [0.2; 0.5; 0.3]%Q) w HN) as (msg & Hr).
  exists msg. now apply bind_raise.
Qed.

Lemma generate_customers_Ok (self : EcommerceDataGenerator) (w w' : World)
    (customers : list Customer) :
  generate_customers self w = Ok (customers, w') ->
  0 <= n_customers self /\
  w' = shift (3 * Z.to_nat (n_customers self)) 0 w /\
  map customer_id customers = range 1 (n_customers self + 1).
Proof.
  intros Hg. destruct (Z.lt_ge_cases (n_customers self) 0) as [Hneg | Hpos].
  - destruct (generate_customers_negative self w Hneg) as (msg & Hr).
    congruence.
  - destruct (generate_customers_success self w Hpos) as (cs & Hs & Hids).
    rewrite Hs in Hg. injection Hg as <- <-. auto.
Qed.

Lemma generate_products_success (self : EcommerceDataGenerator) (w : World) :
  0 <= n_products self ->
  let m := Z.to_nat (n_products self) in
  exists products,
    generate_products self w = Ok (products, shift (3 * m) 0 w) /\
    map product_id products = range 1 (n_products self + 1) /\
    map base_price products =
      draws (fun u => 10 + (500 - 10) * u)%Q m (shift m 0 w) /\
    map cost products =
      draws (fun u => 5 + (300 - 5) * u)%Q m (shift (2 * m) 0 w) /\
    Forall (fun p => profit_margin p
                     = ((base_price p - cost p) / base_price p)%Q) products.
Proof.
  intros HM m. unfold generate_products.
  destruct (choice_n_success
              [Electronics; Clothing; Books; Home; Sports; Beauty]
              (n_products self) None w) as (cats & Hcats & Fcats);
    [discriminate | exact HM | reflexivity |].
  rewrite (bind_step _ _ _ _ _ Hcats).
  apply Forall2_length in Fcats. rewrite draws_length in Fcats.
  rewrite (bind_step _ _ _ _ _ (uniform_nonneg _ _ _ _ HM)).
  rewrite (bind_step _ _ _ _ _ (uniform_nonneg _ _ _ _ HM)).
  fold m in Fcats |- *. rewrite !shift_shift.
  set (ids := range 1 (n_products self + 1)).
  set (prices := draws (fun u => 10 + (500 - 10) * u)%Q m (shift m 0 w)).
  set (costs := draws (fun u => 5 + (300 - 5) * u)%Q m (shift (m + m) 0 w)).
  assert (Lids : length ids = m).
  { unfold ids. rewrite range_length. unfold m. f_equal. lia. }
  assert (Lprices : length prices = m) by apply draws_length.
  assert (Lcosts : length costs = m) by apply draws_length.
  rewrite (bind_step _ _ _ _ _
             (DataFrame4_eq ids cats prices costs _
                ltac:(congruence) ltac:(congruence) ltac:(congruence))).
  set (rows := combine ids (combine cats (combine prices costs))).
  assert (Lrest : length ids = length (combine cats (combine prices costs))).
  { rewrite !length_combine. lia. }
  assert (Lrest' : length cats = length (combine prices costs)).
  { rewrite !length_combine. lia. }
  eexists. split; [| split; [| split; [| split]]].
  - unfold ret. apply f_equal, f_equal2; [reflexivity | f_equal; lia].
  - rewrite map_map. rewrite <- (map_fst_combine ids _ Lrest) at 1.
    apply map_ext. now intros (i & c & b & k).
  - rewrite map_map.
    rewrite <- (map_fst_combine prices costs) at 1 by congruence.
    rewrite <- (map_snd_combine cats (combine prices costs) Lrest') at 1.
    rewrite <- (map_snd_combine ids _ Lrest) at 1.
    rewrite !map_map. apply map_ext. now intros (i & c & b & k).
  - rewrite map_map. replace (2 * m)%nat with (m + m)%nat by lia.
    fold costs.
    rewrite <- (map_snd_combine prices costs) at 1 by congruence.
    rewrite <- (map_snd_combine cats (combine prices costs) Lrest') at 1.
    rewrite <- (map_snd_combine ids _ Lrest) at 1.
    rewrite !map_map. apply map_ext. now intros (i & c & b & k).
  - apply Forall_map, Forall_forall. now intros (i & c & b & k) _.
Qed.

Lemma generate_products_negative (self : EcommerceDataGenerator) (w : World) :
  n_products self < 0 ->
  exists msg, generate_products self w = Raise (ValueError msg).
Proof.
  intros HM. unfold generate_products.
  destruct (choice_n_negative
              [Electronics; Clothing; Books; Home; Sports; Beauty]
              (n_products self) None w HM) as (msg & Hr).
  exists msg. now apply bind_raise.
Qed.

Lemma generate_products_Ok (self : EcommerceDataGenerator) (w w' : World)
    (products : list Product) :
  generate_products self w = Ok (products, w') ->
  let m := Z.to_nat (n_products self) in
  0 <= n_products self /\
  w' = shift (3 * m) 0 w /\
  map product_id products = range 1 (n_products self + 1) /\
  map base_price products =
    draws (fun u => 10 + (500 - 10) * u)%Q m (shift m 0 w) /\
  map cost products =
    draws (fun u => 5 + (300 - 5) * u)%Q m (shift (2 * m) 0 w) /\
  Forall (fun p => profit_margin p
                   = ((base_price p - cost p) / base_price p)%Q) products.
Proof.
  intros Hg m. destruct (Z.lt_ge_cases (n_products self) 0) as [Hneg | Hpos].
  - destruct (generate_products_negative self w Hneg) as (msg & Hr).
    congruence.
  - destruct (generate_products_success self w Hpos) as (ps & Hs & Hrest).
    rewrite Hs in Hg. injection Hg as <- <-. auto.
Qed.

(** ** The selection weights *)

Lemma segment_weight_pos (s : Segment) : (0 < segment_weight s)%Q.
Proof. now destruct s. Qed.

Lemma Qsum_pos (l : list Q) :
  l <> [] -> Forall (fun x => 0 < x)%Q l -> (0 < Qsum l)%Q.
Proof.
  intros Hl HF. induction HF as [| x r Hx HF IH]; [congruence |].
  cbn [Qsum]. destruct r as [| y r'].
  - simpl. now rewrite Qplus_0_r.
  - replace 0%Q with (0 + 0)%Q by reflexivity.
    apply Qplus_lt_le_compat; [exact Hx |].
    apply Qlt_le_weak, IH. discriminate.
Qed.

Lemma Qsum_map_div (l : list Q) (t : Q) :
  (Qsum (map (fun x => x / t) l) == Qsum l / t)%Q.
Proof.
  induction l as [| x r IH]; cbn [map Qsum].
  - unfold Qdiv. now rewrite Qmult_0_l.
  - rewrite IH. unfold Qdiv. ring.
Qed.

Lemma weights_total_pos (customers : list Customer) :
  customers <> [] ->
  (0 < Qsum (map (fun c => segment_weight (customer_segment c)) customers))%Q.
Proof.
  intros Hc. apply Qsum_pos.
  - destruct customers; [congruence | discriminate].
  - apply Forall_map, Forall_forall. intros c _. apply segment_weight_pos.
Qed.

(** The normalised weights pass the checks of [np.random.choice]. *)
Lemma normalized_weights_checked (customers : list Customer) (w : World) :
  customers <> [] ->
  choice_checks (map customer_id customers) false
    (Some (normalized_weights customers)) w = Ok (tt, w).
Proof.
  intros Hc. pose proof (weights_total_pos customers Hc) as Hpos.
  unfold choice_checks, normalized_weights.
  set (ws := map (fun c => segment_weight (customer_segment c)) customers)
    in *.
  assert (Lws : length ws = length customers) by apply length_map.
  rewrite !length_map, Lws, Nat.eqb_refl.
  destruct customers as [| c0 cs]; [congruence |].
  cbn [length Nat.eqb andb negb].
  destruct (existsb _ _) eqn:Eneg.
  { apply existsb_exists in Eneg as (x & Hin & Hx).
    apply in_map_iff in Hin as (y & <- & Hy).
    unfold ws in Hy. apply in_map_iff in Hy as (c & <- & _).
    apply negb_true_iff in Hx.
    assert (Hle : (0 <= segment_weight (customer_segment c) / Qsum ws)%Q).
    { apply Qle_shift_div_l; [exact Hpos |].
      rewrite Qmult_0_l. apply Qlt_le_weak, segment_weight_pos. }
    apply Qle_bool_iff in Hle. congruence. }
  assert (Hone : Qle_bool (Qabs (Qsum (map (fun x => (x / Qsum ws)%Q) ws) - 1))
                   atol = true).
  { apply Qle_bool_iff.
    assert (E : (Qsum (map (fun x => x / Qsum ws) ws) - 1 == 0)%Q).
    { rewrite Qsum_map_div. field. intros E0. rewrite E0 in Hpos.
      now apply Qlt_irrefl in Hpos. }
    rewrite E. discriminate. }
  now rewrite Hone.
Qed.

(** ** Looking a referenced row up *)

Lemma iloc0_filter_Ok {A B} (g : A -> B) (f : A -> bool) (l : list A)
    (w w' : World) (x : B) :
  iloc0 (map g (filter f l)) w = Ok (x, w') ->
  w' = w /\ exists a, find f l = Some a /\ x = g a.
Proof.
  induction l as [| a l IH]; cbn [filter find map iloc0].
  - intros Hr. raised Hr.
  - destruct (f a); [| exact IH].
    cbn [map iloc0]. unfold ret. intros [= <- <-]. eauto.
Qed.

Lemma iloc0_filter_found {A B} (g : A -> B) (f : A -> bool) (l : list A)
    (w : World) (a : A) :
  find f l = Some a -> iloc0 (map g (filter f l)) w = Ok (g a, w).
Proof.
  induction l as [| b l IH]; cbn [filter find map iloc0]; [discriminate |].
  destruct (f b); [| exact IH].
  now intros [= ->].
Qed.

Lemma find_key {A} (key : A -> Z) (l : list A) (id : Z) :
  In id (map key l) -> exists a, find (fun x => key x =? id) l = Some a.
Proof.
  induction l as [| b l IH]; cbn [map In find]; [tauto |].
  intros [E | Hin].
  - rewrite E, Z.eqb_refl. eauto.
  - destruct (key b =? id); eauto.
Qed.

(** ** The loop body and the loop *)

Section Loop.
Context `{Platform}.

Lemma transaction_row_Ok (customers : list Customer) (products : list Product)
    (i : Z) (w w' : World) (row : Transaction) :
  transaction_row customers products (normalized_weights customers) i w
    = Ok (row, w') ->
  w' = shift 5 1 w /\ drawn_row customers products i w row.
Proof.
  intros Hr. unfold transaction_row in Hr. cbv zeta in Hr.
  apply bind_Ok in Hr as (cid & w1 & Hcid & Hr).
  apply choice_Ok in Hcid as (-> & Hcid & _).
  apply bind_Ok in Hr as (seg & w2 & Hseg & Hr).
  apply iloc0_filter_Ok in Hseg as (-> & c & Hc & ->).
  apply bind_Ok in Hr as (pid & w3 & Hpid & Hr).
  apply choice_Ok in Hpid as (-> & Hpid & _).
  apply bind_Ok in Hr as (price & w4 & Hprice & Hr).
  apply iloc0_filter_Ok in Hprice as (-> & p & Hp & ->).
  apply bind_Ok in Hr as (qty & w5 & Hqty & Hr).
  apply choice_Ok in Hqty as (-> & Hqty & _).
  apply bind_Ok in Hr as (days & w6 & Hdays & Hr).
  rewrite exponential_eq in Hdays. injection Hdays as <- <-.
  apply bind_Ok in Hr as (now & w7 & Hnow & Hr).
  rewrite datetime_now_eq in Hnow. injection Hnow as <- <-.
  apply bind_Ok in Hr as (chan & w8 & Hchan & Hr).
  apply choice_Ok in Hchan as (-> & Hchan & _).
  unfold ret in Hr. injection Hr as <- <-.
  rewrite ?shift_shift, ?variate_at_shift in *.
  split; [reflexivity |].
  constructor; cbn [transaction_id tx_customer_id tx_product_id quantity
                    unit_price total_amount transaction_date channel];
    try assumption; try reflexivity.
  exists c, p. auto.
Qed.

Lemma transaction_row_success (customers : list Customer)
    (products : list Product) (i : Z) (w : World) :
  customers <> [] -> products <> [] ->
  exists row,
    transaction_row customers products (normalized_weights customers) i w
      = Ok (row, shift 5 1 w).
Proof.
  intros Hcs Hps. unfold transaction_row. cbv zeta.
  destruct (choice_success (map customer_id customers)
              (Some (normalized_weights customers)) w)
    as (cid & Hcid & Ncid).
  { destruct customers; [congruence | discriminate]. }
  { now apply normalized_weights_checked. }
  rewrite (bind_step _ _ _ _ _ Hcid).
  destruct (find_key customer_id customers cid (nth_error_In _ _ Ncid))
    as (c & Hc).
  rewrite (bind_step _ _ _ _ _
             (iloc0_filter_found customer_segment _ _ _ _ Hc)).
  destruct (choice_success (map product_id products) None (shift 1 0 w))
    as (pid & Hpid & Npid).
  { destruct products; [congruence | discriminate]. }
  { destruct products; [congruence | reflexivity]. }
  rewrite (bind_step _ _ _ _ _ Hpid).
  destruct (find_key product_id products pid (nth_error_In _ _ Npid))
    as (p & Hp).
  rewrite (bind_step _ _ _ _ _ (iloc0_filter_found base_price _ _ _ _ Hp)).
  destruct (choice_success [1; 2; 3; 4; 5]
              (Some [0.5; 0.25; 0.15; 0.07; 0.03]%Q)
              (shift 1 0 (shift 1 0 w)))
    as (qty & Hqty & _); [discriminate | reflexivity |].
  rewrite (bind_step _ _ _ _ _ Hqty).
  rewrite (bind_step _ _ _ _ _ (exponential_eq _ _)).
  rewrite (bind_step _ _ _ _ _ (datetime_now_eq _)).
  destruct (choice_success [Online; Store] (Some [0.7; 0.3]%Q)
              (shift 0 1 (shift 1 0 (shift 1 0 (shift 1 0 (shift 1 0 w))))))
    as (chan & Hchan & _); [discriminate | reflexivity |].
  rewrite (bind_step _ _ _ _ _ Hchan).
  eexists. unfold ret. now rewrite !shift_shift.
Qed.

(** What the loop returns: the rows so far, then one drawn row per
    iteration; iteration [j] starts [5 * j] variates and [j] clock readings
    after the loop does. *)
Lemma transaction_loop_Ok (customers : list Customer)
    (products : list Product) (todo : nat) :
  forall (i : Z) (acc txs : list Transaction) (w w' : World),
  transaction_loop customers products (normalized_weights customers)
    todo i acc w = Ok (txs, w') ->
  w' = shift (5 * todo) todo w /\
  exists rows,
    txs = acc ++ rows /\ length rows = todo /\
    forall j row, nth_error rows j = Some row ->
      drawn_row customers products (i + Z.of_nat j) (shift (5 * j) j w) row.
Proof.
  induction todo as [| k IH]; intros i acc txs w w' Hl.
  - cbn in Hl. unfold ret in Hl. injection Hl as <- <-.
    split; [now rewrite shift_0 |].
    exists []. split; [now rewrite app_nil_r | split; [reflexivity |]].
    intros [| j] row Hn; discriminate.
  - cbn [transaction_loop] in Hl.
    apply bind_Ok in Hl as (row0 & w1 & Hrow & Hl).
    apply transaction_row_Ok in Hrow as (-> & Hrow).
    apply IH in Hl as (-> & rows & -> & Hlen & Hrows).
    split; [rewrite shift_shift; f_equal; lia |].
    exists (row0 :: rows). split; [now rewrite <- app_assoc |].
    split; [simpl; now rewrite Hlen |].
    intros [| j] row Hn.
    + cbn in Hn. injection Hn as <-.
      now rewrite shift_0, Z.add_0_r.
    + cbn [nth_error] in Hn. apply Hrows in Hn.
      rewrite shift_shift in Hn.
      replace (5 * S j)%nat with (5 + 5 * j)%nat by lia.
      replace (i + Z.of_nat (S j)) with (i + 1 + Z.of_nat j) by lia.
      exact Hn.
Qed.

Lemma transaction_loop_success (customers : list Customer)
    (products : list Product) (todo : nat) :
  customers <> [] -> products <> [] ->
  forall (i : Z) (acc : list Transaction) (w : World),
  exists txs,
    transaction_loop customers products (normalized_weights customers)
      todo i acc w = Ok (txs, shift (5 * todo) todo w).
Proof.
  intros Hcs Hps. induction todo as [| k IH]; intros i acc w.
  - exists acc. cbn. unfold ret. now rewrite shift_0.
  - destruct (transaction_row_success customers products i w Hcs Hps)
      as (row & Hrow).
    destruct (IH (i + 1) (acc ++ [row]) (shift 5 1 w)) as (txs & Hl).
    exists txs. cbn [transaction_loop].
    rewrite (bind_step _ _ _ _ _ Hrow), Hl, shift_shift.
    do 2 f_equal. f_equal; lia.
Qed.

End Loop.

(** ** The transaction synthesizer *)

Section Synthesizer.
Context `{Platform}.

Lemma generate_transactions_Ok (self : EcommerceDataGenerator)
    (customers : list Customer) (products : list Product)
    (w w' : World) (txs : list Transaction) :
  generate_transactions self customers products w = Ok (txs, w') ->
  let t := Z.to_nat (n_transactions self) in
  w' = shift (5 * t) t w /\ length txs = t /\
  forall j row, nth_error txs j = Some row ->
    drawn_row customers products (Z.of_nat j) (shift (5 * j) j w) row.
Proof.
  intros Hg t. unfold generate_transactions in Hg.
  apply transaction_loop_Ok in Hg as (-> & rows & -> & Hlen & Hrows).
  now split.
Qed.

Lemma generate_transactions_success (self : EcommerceDataGenerator)
    (customers : list Customer) (products : list Product) (w : World) :
  customers <> [] -> products <> [] ->
  let t := Z.to_nat (n_transactions self) in
  exists txs,
    generate_transactions self customers products w
      = Ok (txs, shift (5 * t) t w).
Proof.
  intros Hcs Hps t. unfold generate_transactions.
  exact (transaction_loop_success customers products t Hcs Hps 0 [] w).
Qed.

Lemma generated_row_drawn (self : EcommerceDataGenerator)
    (customers : list Customer) (products : list Product)
    (w w' : World) (txs : list Transaction) (row : Transaction) :
  generate_transactions self customers products w = Ok (txs, w') ->
  In row txs ->
  exists i w0, drawn_row customers products i w0 row.
Proof.
  intros Hg Hin. apply generate_transactions_Ok in Hg as (_ & _ & Hrows).
  apply In_nth_error in Hin as (j & Hj). eauto.
Qed.

End Synthesizer.

Lemma map_by_index {A B} (f : A -> B) (l : list A) :
  forall g : nat -> B,
  (forall j x, nth_error l j = Some x -> f x = g j) ->
  map f l = map g (seq 0 (length l)).
Proof.
  induction l as [| x r IH]; intros g Hg; [reflexivity |].
  cbn [map length seq]. f_equal.
  - now apply (Hg 0%nat).
  - rewrite <- seq_shift, map_map.
    apply IH. intros j y Hj. now apply (Hg (S j)).
Qed.

Lemma drawn_price_at_least_10 (u : Q) :
  (0 <= u)%Q -> (10 <= 10 + (500 - 10) * u)%Q.
Proof.
  intros Hu. rewrite <- (Qplus_0_r 10) at 1.
  apply Qplus_le_r. apply Qmult_le_0_compat; [discriminate | exact Hu].
Qed.

(** ** Failure and success of a whole generation *)

Section Failures.
Context `{Platform}.

Lemma transaction_row_empty (customers : list Customer)
    (products : list Product) (i : Z) (w : World) :
  customers = [] \/ products = [] ->
  exists msg,
    transaction_row customers products (normalized_weights customers) i w
      = Raise (ValueError msg).
Proof.
  intros Hempty.
  destruct customers as [| c0 cs].
  - eexists. reflexivity.
  - destruct Hempty as [Hcs | ->]; [discriminate |].
    unfold transaction_row. cbv zeta.
    destruct (choice_success (map customer_id (c0 :: cs))
                (Some (normalized_weights (c0 :: cs))) w)
      as (cid & Hcid & Ncid).
    { discriminate. }
    { now apply normalized_weights_checked. }
    rewrite (bind_step _ _ _ _ _ Hcid).
    destruct (find_key customer_id (c0 :: cs) cid (nth_error_In _ _ Ncid))
      as (c & Hc).
    rewrite (bind_step _ _ _ _ _
               (iloc0_filter_found customer_segment _ _ _ _ Hc)).
    eexists. reflexivity.
Qed.

Lemma generate_transactions_empty (self : EcommerceDataGenerator)
    (customers : list Customer) (products : list Product) (w : World) :
  customers = [] \/ products = [] -> 1 <= n_transactions self ->
  exists msg,
    generate_transactions self customers products w = Raise (ValueError msg).
Proof.
  intros Hempty HT. unfold generate_transactions.
  destruct (Z.to_nat (n_transactions self)) as [| k] eqn:Et; [lia |].
  destruct (transaction_row_empty customers products 0 w Hempty)
    as (msg & Hrow).
  exists msg. cbn [transaction_loop]. now apply bind_raise.
Qed.

Lemma generate_transactions_none (self : EcommerceDataGenerator)
    (customers : list Customer) (products : list Product) (w : World) :
  n_transactions self <= 0 ->
  generate_transactions self customers products w = Ok ([], w).
Proof.
  intros HT. unfold generate_transactions.
  replace (Z.to_nat (n_transactions self)) with 0%nat by lia.
  reflexivity.
Qed.

End Failures.

Lemma map_range_length {A} (key : A -> Z) (l : list A) (n : Z) :
  0 <= n -> map key l = range 1 (n + 1) -> Z.of_nat (length l) = n.
Proof.
  intros Hn Hk. rewrite <- (length_map key), Hk, range_length. lia.
Qed.

(** ** What a generation owes to the random state alone *)

Lemma agree_ret {A} (R : A -> A -> Prop) (a1 a2 : A) :
  R a1 a2 -> agree R (ret a1) (ret a2).
Proof. intros HR w1 w2 Hw. now split. Qed.

Lemma agree_raise {A} (R : A -> A -> Prop) (e : Exception) :
  agree R (raise e) (raise e).
Proof. intros w1 w2 Hw. reflexivity. Qed.

Lemma agree_bind {A B} (R : A -> A -> Prop) (S : B -> B -> Prop)
    (m1 m2 : M A) (f1 f2 : A -> M B) :
  agree R m1 m2 ->
  (forall a1 a2, R a1 a2 -> agree S (f1 a1) (f2 a2)) ->
  agree S (bind m1 f1) (bind m2 f2).
Proof.
  intros Hm Hf w1 w2 Hw. specialize (Hm w1 w2 Hw). unfold bind.
  destruct (m1 w1) as [[a1 w1'] | e1], (m2 w2) as [[a2 w2'] | e2];
    try contradiction; [| exact Hm].
  destruct Hm as [HR Hw']. now apply Hf.
Qed.

Lemma agree_bind_eq {A B} (S : B -> B -> Prop) (m : M A) (f1 f2 : A -> M B) :
  agree eq m m ->
  (forall a, agree S (f1 a) (f2 a)) ->
  agree S (bind m f1) (bind m f2).
Proof.
  intros Hm Hf. apply (agree_bind eq); [exact Hm |].
  intros a1 a2 <-. apply Hf.
Qed.

Lemma agree_random_sample : agree eq random_sample random_sample.
Proof.
  intros w1 w2 Hw. unfold random_sample, same_random in *. cbn.
  now rewrite Hw.
Qed.

Lemma agree_datetime_now :
  agree (fun _ _ => True) datetime_now datetime_now.
Proof. intros w1 w2 Hw. now split. Qed.

Lemma agree_choice_checks {A} (a : list A) (b : bool) (p : option (list Q)) :
  agree eq (choice_checks a b p) (choice_checks a b p).
Proof.
  intros w1 w2 Hw.
  destruct (choice_checks_cases a b p) as [Hall | [msg Hall]];
    rewrite !Hall; [now split | reflexivity].
Qed.

Lemma agree_take {A} (a : list A) (i : nat) : agree eq (take a i) (take a i).
Proof.
  unfold take. destruct (nth_error a i);
    [now apply agree_ret | apply agree_raise].
Qed.

Lemma agree_iloc0 {A} (s : list A) : agree eq (iloc0 s) (iloc0 s).
Proof.
  destruct s; [apply agree_raise | now apply agree_ret].
Qed.

Lemma agree_choice_index (n : nat) (p : option (list Q)) :
  agree eq (choice_index n p) (choice_index n p).
Proof.
  apply agree_bind_eq; [apply agree_random_sample |].
  intros u. now apply agree_ret.
Qed.

Lemma agree_choice {A} (a : list A) (p : option (list Q)) :
  agree eq (choice a p) (choice a p).
Proof.
  apply agree_bind_eq; [apply agree_choice_checks | intros _].
  apply agree_bind_eq; [apply agree_choice_index | intros i].
  apply agree_take.
Qed.

Lemma agree_replicateM {A} (m : M A) (n : nat) :
  agree eq m m -> agree eq (replicateM n m) (replicateM n m).
Proof.
  intros Hm. induction n as [| n IH]; [now apply agree_ret |].
  cbn [replicateM]. apply agree_bind_eq; [exact Hm | intros x].
  apply agree_bind_eq; [exact IH | intros xs]. now apply agree_ret.
Qed.

Lemma agree_mapM {A B} (f : A -> M B) (l : list A) :
  (forall x, agree eq (f x) (f x)) -> agree eq (mapM f l) (mapM f l).
Proof.
  intros Hf. induction l as [| x r IH]; [now apply agree_ret |].
  cbn [mapM]. apply agree_bind_eq; [apply Hf | intros y].
  apply agree_bind_eq; [exact IH | intros ys]. now apply agree_ret.
Qed.

Lemma agree_sized {A} (m : M A) (n : Z) :
  agree eq m m -> agree eq (sized n m) (sized n m).
Proof.
  intros Hm. unfold sized.
  destruct (n <? 0); [apply agree_raise | now apply agree_replicateM].
Qed.

Lemma agree_choice_n {A} (a : list A) (n : Z) (p : option (list Q)) :
  agree eq (choice_n a n p) (choice_n a n p).
Proof.
  apply agree_bind_eq; [apply agree_choice_checks | intros _].
  apply agree_bind_eq;
    [apply agree_sized, agree_choice_index | intros idx].
  apply agree_mapM. intros i. apply agree_take.
Qed.

Lemma agree_uniform (low high : Q) (n : Z) :
  agree eq (uniform low high n) (uniform low high n).
Proof.
  apply agree_sized.
  apply agree_bind_eq; [apply agree_random_sample | intros u].
  now apply agree_ret.
Qed.

Lemma agree_exponential `{Platform} (scale : Q) :
  agree eq (exponential scale) (exponential scale).
Proof.
  apply agree_bind_eq; [apply agree_random_sample | intros u].
  now apply agree_ret.
Qed.

Lemma agree_date_range (start stop periods : Z) :
  agree eq (date_range start stop periods) (date_range start stop periods).
Proof.
  unfold date_range.
  destruct (periods <? 0); [apply agree_raise | now apply agree_ret].
Qed.

Lemma agree_DataFrame4 {A B C D} (a : list A) (b : list B) (c : list C)
    (d : list D) :
  agree eq (DataFrame4 a b c d) (DataFrame4 a b c d).
Proof.
  unfold DataFrame4.
  destruct (_ && _)%bool; [now apply agree_ret | apply agree_raise].
Qed.

Lemma agree_DataFrame5 {A B C D E} (a : list A) (b : list B) (c : list C)
    (d : list D) (e : list E) :
  agree eq (DataFrame5 a b c d e) (DataFrame5 a b c d e).
Proof.
  unfold DataFrame5.
  destruct (_ && _)%bool; [now apply agree_ret | apply agree_raise].
Qed.

Lemma agree_generate_customers (self : EcommerceDataGenerator) :
  agree eq (generate_customers self) (generate_customers self).
Proof.
  unfold generate_customers. cbv zeta.
  apply agree_bind_eq; [apply agree_choice_n | intros segs].
  apply agree_bind_eq; [apply agree_choice_n | intros regs].
  apply agree_bind_eq; [apply agree_date_range | intros dates].
  apply agree_bind_eq; [apply agree_choice_n | intros ages].
  apply agree_bind_eq; [apply agree_DataFrame5 | intros rows].
  now apply agree_ret.
Qed.

Lemma agree_generate_products (self : EcommerceDataGenerator) :
  agree eq (generate_products self) (generate_products self).
Proof.
  unfold generate_products. cbv zeta.
  apply agree_bind_eq; [apply agree_choice_n | intros cats].
  apply agree_bind_eq; [apply agree_uniform | intros prices].
  apply agree_bind_eq; [apply agree_uniform | intros costs].
  apply agree_bind_eq; [apply agree_DataFrame4 | intros rows].
  now apply agree_ret.
Qed.

Section Agreement.
Context `{Platform}.

Lemma agree_transaction_row (customers : list Customer)
    (products : list Product) (customer_weights : list Q) (i : Z) :
  agree same_but_date
    (transaction_row customers products customer_weights i)
    (transaction_row customers products customer_weights i).
Proof.
  unfold transaction_row. cbv zeta.
  apply agree_bind_eq; [apply agree_choice | intros cid].
  apply agree_bind_eq; [apply agree_iloc0 | intros seg].
  apply agree_bind_eq; [apply agree_choice | intros pid].
  apply agree_bind_eq; [apply agree_iloc0 | intros price].
  apply agree_bind_eq; [apply agree_choice | intros qty].
  apply agree_bind_eq; [apply agree_exponential | intros days_back].
  apply (agree_bind (fun _ _ => True)); [apply agree_datetime_now |].
  intros now1 now2 _.
  apply agree_bind_eq; [apply agree_choice | intros chan].
  apply agree_ret. now repeat split.
Qed.

Lemma agree_transaction_loop (customers : list Customer)
    (products : list Product) (customer_weights : list Q) (todo : nat) :
  forall (i : Z) (acc1 acc2 : list Transaction),
  Forall2 same_but_date acc1 acc2 ->
  agree (Forall2 same_but_date)
    (transaction_loop customers products customer_weights todo i acc1)
    (transaction_loop customers products customer_weights todo i acc2).
Proof.
  induction todo as [| k IH]; intros i acc1 acc2 Hacc.
  - now apply agree_ret.
  - cbn [transaction_loop].
    apply (agree_bind same_but_date); [apply agree_transaction_row |].
    intros row1 row2 Hrow. apply IH.
    apply Forall2_app; [exact Hacc | now constructor].
Qed.

(** Tables that agree but for the date column of the transactions. *)
Lemma agree_generate_all_data (self : EcommerceDataGenerator) :
  agree (fun t1 t2 =>
           fst (fst t1) = fst (fst t2) /\ snd (fst t1) = snd (fst t2) /\
           Forall2 same_but_date (snd t1) (snd t2))
    (generate_all_data self) (generate_all_data self).
Proof.
  unfold generate_all_data.
  apply agree_bind_eq; [apply agree_generate_customers | intros customers].
  apply agree_bind_eq; [apply agree_generate_products | intros products].
  apply (agree_bind (Forall2 same_but_date)).
  - apply agree_transaction_loop. constructor.
  - intros txs1 txs2 Htxs. apply agree_ret. now repeat split.
Qed.

End Agreement.

(** ** Runs *)

Section Runs.
Context `{Platform}.

Lemma init_eq (customers products transactions : Z) (w : World) :
  init customers products transactions w
  = Ok (mkGenerator customers products transactions, seeded w).
Proof. reflexivity. Qed.

Lemma run_eq (customers products transactions : Z) (w : World) :
  run customers products transactions w
  = generate_all_data (mkGenerator customers products transactions) (seeded w).
Proof. unfold run. now rewrite (bind_step _ _ _ _ _ (init_eq _ _ _ _)). Qed.

Lemma generate_all_data_Ok (self : EcommerceDataGenerator) (w w' : World)
    (customers : list Customer) (products : list Product)
    (txs : list Transaction) :
  generate_all_data self w = Ok ((customers, products, txs), w') ->
  let n := Z.to_nat (n_customers self) in
  let m := Z.to_nat (n_products self) in
  let t := Z.to_nat (n_transactions self) in
  generate_customers self w = Ok (customers, shift (3 * n) 0 w) /\
  generate_products self (shift (3 * n) 0 w)
    = Ok (products, shift (3 * n + 3 * m) 0 w) /\
  generate_transactions self customers products (shift (3 * n + 3 * m) 0 w)
    = Ok (txs, w') /\
  w' = shift (3 * n + 3 * m + 5 * t) t w.
Proof.
  intros Hg n m t. unfold generate_all_data in Hg.
  apply bind_Ok in Hg as (cs & w1 & Hcs & Hg).
  pose proof (generate_customers_Ok _ _ _ _ Hcs) as (_ & E1 & _).
  fold n in E1. subst w1.
  apply bind_Ok in Hg as (ps & w2 & Hps & Hg).
  pose proof (generate_products_Ok _ _ _ _ Hps) as (_ & E2 & _).
  fold m in E2. rewrite shift_shift in E2.
  replace (0 + 0)%nat with 0%nat in E2 by reflexivity. subst w2.
  apply bind_Ok in Hg as (ts & w3 & Hts & Hg).
  pose proof (generate_transactions_Ok _ _ _ _ _ _ Hts) as (E3 & _).
  fold t in E3. rewrite shift_shift in E3.
  replace (0 + t)%nat with t in E3 by reflexivity. subst w3.
  unfold ret in Hg. injection Hg as <- <- <- <-.
  repeat split; assumption.
Qed.

End Runs.


(** * The claims *)

(** C1, as amended: for every generated transaction row the stored
    [total_amount] is [round(quantity * unit, 2)] where [unit] is the
    unrounded product of the referenced product's base price and the
    referenced customer's segment multiplier; the stored [unit_price] is
    [round(unit, 2)] of the same unrounded value.  The total is not computed
    from the stored, rounded unit price. *)
Theorem total_amount_rounds_unrounded_price `{Platform}
    (self : EcommerceDataGenerator) (customers : list Customer)
    (products : list Product) (w w' : World) (txs : list Transaction) :
  generate_transactions self customers products w = Ok (txs, w') ->
  Forall (fun row =>
    exists c p,
      customer_of customers (tx_customer_id row) = Some c /\
      product_of products (tx_product_id row) = Some p /\
      let unit := (base_price p * price_multiplier (customer_segment c))%Q in
      unit_price row = round2 unit /\
      total_amount row = round2 (inject_Z (quantity row) * unit)) txs.
Proof.
  intros Hg. apply Forall_forall. intros row Hin.
  destruct (generated_row_drawn _ _ _ _ _ _ _ Hg Hin) as (i & w0 & Hrow).
  exact (drawn_prices _ _ _ _ _ Hrow).
Qed.

(** C1, counterexample: one customer (Standard), one product with base price
    [10 + 490 / 2^17] and one sale of quantity 5.  The stored unit price is
    10.00 and the stored total is 50.02, while [round(5 * 10.00, 2)] is
    50.00. *)
Lemma total_amount_differs_from_rounded_price :
  exists customers products row w',
    @run (tape_platform one_sale) 1 1 1 (world_at [1700000000000000])
      = Ok ((customers, products, [row]), w') /\
    quantity row = 5 /\
    unit_price row = Qmake 1000 100 /\
    total_amount row = Qmake 5002 100 /\
    ~ (total_amount row == round2 (inject_Z (quantity row) * unit_price row))%Q.
Proof.
  do 4 eexists. split; [vm_compute; reflexivity |].
  repeat split. vm_compute. discriminate.
Qed.

(** C1, an instance of the amended statement: a Standard customer buys five
    of a product priced 100.004; the total is 500.02. *)
Lemma total_amount_rounds_unrounded_price_witness :
  let customers := [mkCustomer 1 Standard North 0 Age18_25] in
  let products := [mkProduct 1 Books 100.004 60 0.4] in
  let w0 := world_of [0; 0; 9007199254740991]%N [0] in
  let row := mkTransaction 1 1 1 5 (Qmake 10000 100) (Qmake 50002 100)
               0 Online in
  @generate_transactions (tape_platform []) (mkGenerator 0 0 1)
    customers products w0 = Ok ([row], shift 5 1 w0) /\
  Forall (fun row =>
    exists c p,
      customer_of customers (tx_customer_id row) = Some c /\
      product_of products (tx_product_id row) = Some p /\
      let unit := (base_price p * price_multiplier (customer_segment c))%Q in
      unit_price row = round2 unit /\
      total_amount row = round2 (inject_Z (quantity row) * unit)) [row].
Proof.
  intros customers products w0 row.
  assert (Hrun : @generate_transactions (tape_platform []) (mkGenerator 0 0 1)
                   customers products w0 = Ok ([row], shift 5 1 w0))
    by (vm_compute; reflexivity).
  split; [exact Hrun |].
  exact (@total_amount_rounds_unrounded_price (tape_platform [])
           (mkGenerator 0 0 1) customers products w0 (shift 5 1 w0) [row]
           Hrun).
Defined.

(** C2, as amended: two runs with the same seed and the same three counts,
    started in any two worlds, either both raise the same exception or
    return the same customer table, the same product table, and transaction
    tables that agree row by row in every column but [transaction_date]
    (which comes from the wall clock).  When the clocks of the two runs give
    the same readings the transaction tables are equal too. *)
Theorem same_seed_same_tables_but_dates `{Platform}
    (customers products transactions : Z) (w1 w2 : World) :
  match run customers products transactions w1,
        run customers products transactions w2 with
  | Ok ((c1, p1, t1), _), Ok ((c2, p2, t2), _) =>
      c1 = c2 /\ p1 = p2 /\ Forall2 same_but_date t1 t2 /\
      (wall_clock w1 = wall_clock w2 -> clock_reads w1 = clock_reads w2 ->
       t1 = t2)
  | Raise e1, Raise e2 => e1 = e2
  | _, _ => False
  end.
Proof.
  rewrite !run_eq.
  pose proof (agree_generate_all_data
                (mkGenerator customers products transactions)
                (seeded w1) (seeded w2) eq_refl) as Hagree.
  destruct (generate_all_data _ (seeded w1))
    as [[[[c1 p1] t1] w1'] | e1] eqn:E1;
    destruct (generate_all_data _ (seeded w2))
      as [[[[c2 p2] t2] w2'] | e2] eqn:E2;
    try contradiction; [| exact Hagree].
  cbn [fst snd] in Hagree. destruct Hagree as ((Hc & Hp & Ht) & _).
  repeat split; try assumption.
  intros Hclock Hreads.
  assert (Hw : seeded w1 = seeded w2).
  { unfold seeded. now rewrite Hclock, Hreads. }
  rewrite Hw in E1. congruence.
Qed.

(** C2, counterexample: two runs with the same stream and the counts
    (1, 1, 1), one minute apart on the clock.  The customer and the product
    tables are equal; the transaction tables are not. *)
Lemma same_seed_different_transaction_tables :
  exists customers products t1 t2 w1' w2',
    @run (tape_platform one_sale) 1 1 1 (world_at [1700000000000000])
      = Ok ((customers, products, t1), w1') /\
    @run (tape_platform one_sale) 1 1 1 (world_at [1700000060000000])
      = Ok ((customers, products, t2), w2') /\
    t1 <> t2.
Proof.
  do 6 eexists.
  split; [vm_compute; reflexivity | split; [vm_compute; reflexivity |]].
  intros E. discriminate E.
Qed.

(** C2, an instance of the amended statement: the two runs of the
    counterexample. *)
Lemma same_seed_same_tables_but_dates_witness :
  exists c1 p1 t1 w1' c2 p2 t2 w2',
    @run (tape_platform one_sale) 1 1 1 (world_at [1700000000000000])
      = Ok ((c1, p1, t1), w1') /\
    @run (tape_platform one_sale) 1 1 1 (world_at [1700000060000000])
      = Ok ((c2, p2, t2), w2') /\
    c1 = c2 /\ p1 = p2 /\ Forall2 same_but_date t1 t2.
Proof.
  pose proof (@same_seed_same_tables_but_dates (tape_platform one_sale)
                1 1 1 (world_at [1700000000000000])
                (world_at [1700000060000000])) as Hsame.
  destruct (@run (tape_platform one_sale) 1 1 1 (world_at [1700000000000000]))
    as [[[[c1 p1] t1] w1'] | e1] eqn:E1;
    [| vm_compute in E1; discriminate E1].
  destruct (@run (tape_platform one_sale) 1 1 1 (world_at [1700000060000000]))
    as [[[[c2 p2] t2] w2'] | e2] eqn:E2;
    [| vm_compute in E2; discriminate E2].
  destruct Hsame as (Hc & Hp & Ht & _).
  exists c1, p1, t1, w1', c2, p2, t2, w2'. auto.
Defined.

(** C3, as amended: the generator has no precondition checks of its own.
    A generation fails, with the [ValueError] of the numpy draw that cannot
    be made and without returning any table, when the customer or product
    count is negative, or when the customer table or the product table is
    empty and at least one transaction is asked for.  With a transaction
    count of zero or less nothing fails: the synthesizer returns an empty
    transaction table whatever the other tables are, and with non-negative
    customer and product counts all three tables are returned. *)
Theorem failure_only_from_impossible_draws `{Platform}
    (self : EcommerceDataGenerator) (w : World) :
  (forall customers products,
     (customers = [] \/ products = []) -> 1 <= n_transactions self ->
     exists msg,
       generate_transactions self customers products w
         = Raise (ValueError msg)) /\
  (forall customers products,
     n_transactions self <= 0 ->
     generate_transactions self customers products w = Ok ([], w)) /\
  (n_customers self < 0 \/ n_products self < 0 \/
   ((n_customers self = 0 \/ n_products self = 0) /\ 1 <= n_transactions self)
   -> exists msg, generate_all_data self w = Raise (ValueError msg)) /\
  (0 <= n_customers self -> 0 <= n_products self ->
   n_transactions self <= 0 ->
   exists customers products w',
     generate_all_data self w = Ok ((customers, products, []), w') /\
     Z.of_nat (length customers) = n_customers self /\
     Z.of_nat (length products) = n_products self).
Proof.
  split; [| split; [| split]].
  - intros customers products. apply generate_transactions_empty.
  - intros customers products. apply generate_transactions_none.
  - intros Hbad. unfold generate_all_data.
    destruct (Z.lt_ge_cases (n_customers self) 0) as [HN | HN].
    { destruct (generate_customers_negative self w HN) as (msg & Hr).
      exists msg. now apply bind_raise. }
    destruct (generate_customers_success self w HN) as (cs & Hcs & Hcids).
    rewrite (bind_step _ _ _ _ _ Hcs).
    destruct (Z.lt_ge_cases (n_products self) 0) as [HM | HM].
    { destruct (generate_products_negative self
                  (shift (3 * Z.to_nat (n_customers self)) 0 w) HM)
        as (msg & Hr).
      exists msg. now apply bind_raise. }
    destruct (generate_products_success self
                (shift (3 * Z.to_nat (n_customers self)) 0 w) HM)
      as (ps & Hps & Hpids & _).
    rewrite (bind_step _ _ _ _ _ Hps).
    destruct Hbad as [Hbad | [Hbad | [Hzero HT]]]; [lia | lia |].
    assert (Hempty : cs = [] \/ ps = []).
    { destruct Hzero as [E | E]; [left | right].
      - apply length_zero_iff_nil.
        pose proof (map_range_length _ _ _ HN Hcids). lia.
      - apply length_zero_iff_nil.
        pose proof (map_range_length _ _ _ HM Hpids). lia. }
    destruct (generate_transactions_empty self cs ps
                (shift (3 * Z.to_nat (n_products self)) 0
                   (shift (3 * Z.to_nat (n_customers self)) 0 w))
                Hempty HT) as (msg & Hr).
    exists msg. now apply bind_raise.
  - intros HN HM HT. unfold generate_all_data.
    destruct (generate_customers_success self w HN) as (cs & Hcs & Hcids).
    rewrite (bind_step _ _ _ _ _ Hcs).
    destruct (generate_products_success self
                (shift (3 * Z.to_nat (n_customers self)) 0 w) HM)
      as (ps & Hps & Hpids & _).
    rewrite (bind_step _ _ _ _ _ Hps).
    rewrite (bind_step _ _ _ _ _
               (generate_transactions_none self cs ps _ HT)).
    exists cs, ps. eexists. split; [reflexivity |].
    split; eapply map_range_length; eauto.
Qed.

(** C3, counterexample: with all three counts zero (empty customer table,
    empty product table, non-positive counts) the generation raises
    nothing and returns three empty tables. *)
Lemma zero_counts_return_empty_tables :
  exists w',
    @run (tape_platform []) 0 0 0 (world_at []) = Ok (([], [], []), w').
Proof. eexists. vm_compute. reflexivity. Qed.

(** C3, instances of the amended statement: no product and one sale asked
    for fails; one customer, one product and no sale succeeds. *)
Lemma failure_only_from_impossible_draws_witness :
  (exists msg,
     @generate_all_data (tape_platform []) (mkGenerator 1 0 1) (world_of [] [])
       = Raise (ValueError msg)) /\
  (exists customers products w',
     @generate_all_data (tape_platform []) (mkGenerator 1 1 0) (world_of [] [])
       = Ok ((customers, products, []), w') /\
     Z.of_nat (length customers) = 1 /\ Z.of_nat (length products) = 1).
Proof.
  split.
  - apply (proj1 (proj2 (proj2
             (@failure_only_from_impossible_draws (tape_platform [])
                (mkGenerator 1 0 1) (world_of [] []))))).
    right; right. simpl. split; [right; reflexivity | lia].
  - apply (proj2 (proj2 (proj2
             (@failure_only_from_impossible_draws (tape_platform [])
                (mkGenerator 1 1 0) (world_of [] []))))); simpl; lia.
Defined.

(** C4: every generated transaction row refers to a customer [c] and a
    product [p] of the input tables, and its stored [unit_price] is
    [round(base_price(p) * multiplier, 2)], the multiplier being 1.10 for a
    Premium, 1.00 for a Standard and 0.90 for a Basic customer. *)
Theorem unit_price_is_rounded_segment_price `{Platform}
    (self : EcommerceDataGenerator) (customers : list Customer)
    (products : list Product) (w w' : World) (txs : list Transaction) :
  generate_transactions self customers products w = Ok (txs, w') ->
  Forall (fun row =>
    exists c p,
      customer_of customers (tx_customer_id row) = Some c /\
      product_of products (tx_product_id row) = Some p /\
      unit_price row
      = round2 (base_price p
                * match customer_segment c with
                  | Premium => 1.1
                  | Standard => 1.0
                  | Basic => 0.9
                  end)) txs.
Proof.
  intros Hg. apply Forall_forall. intros row Hin.
  destruct (generated_row_drawn _ _ _ _ _ _ _ Hg Hin) as (i & w0 & Hrow).
  destruct (drawn_prices _ _ _ _ _ Hrow) as (c & p & Hc & Hp & Hunit & _).
  exists c, p. split; [exact Hc | split; [exact Hp | exact Hunit]].
Qed.

(** C4, on the scenario of one customer per segment and one product at
    100.00: the three unit prices are 110.00, 100.00 and 90.00. *)
Lemma unit_price_is_rounded_segment_price_witness :
  let w0 := world_of three_sales [1000; 2000; 3000] in
  let txs :=
    [mkTransaction 1 1 1 1 (Qmake 11000 100) (Qmake 11000 100) 1000 Online;
     mkTransaction 2 2 1 1 (Qmake 10000 100) (Qmake 10000 100) 2000 Online;
     mkTransaction 3 3 1 5 (Qmake 9000 100) (Qmake 45000 100)
       (3000 - 1620000000000) Online] in
  @generate_transactions (tape_platform []) (mkGenerator 0 0 3)
    three_customers one_product w0 = Ok (txs, shift 15 3 w0) /\
  Forall (fun row =>
    exists c p,
      customer_of three_customers (tx_customer_id row) = Some c /\
      product_of one_product (tx_product_id row) = Some p /\
      unit_price row
      = round2 (base_price p
                * match customer_segment c with
                  | Premium => 1.1
                  | Standard => 1.0
                  | Basic => 0.9
                  end)) txs.
Proof.
  intros w0 txs.
  assert (Hrun : @generate_transactions (tape_platform []) (mkGenerator 0 0 3)
                   three_customers one_product w0 = Ok (txs, shift 15 3 w0))
    by (vm_compute; reflexivity).
  split; [exact Hrun |].
  exact (@unit_price_is_rounded_segment_price (tape_platform [])
           (mkGenerator 0 0 3) three_customers one_product w0
           (shift 15 3 w0) txs Hrun).
Defined.



(** C6: every generated transaction row has a quantity between 1 and 5, and
    its timestamp is the clock reading of its iteration (the generation
    time) minus an offset between zero and 365 days: it is not after that
    reading and at most 365 days before it. *)
Theorem quantity_and_recency_bounds `{Platform}
    (self : EcommerceDataGenerator) (customers : list Customer)
    (products : list Product) (w w' : World) (txs : list Transaction) :
  generate_transactions self customers products w = Ok (txs, w') ->
  forall j row, nth_error txs j = Some row ->
    1 <= quantity row <= 5 /\
    let generation_time := wall_clock w (j + clock_reads w) in
    transaction_date row <= generation_time /\
    generation_time - transaction_date row <= 365 * microseconds_per_day.
Proof.
  intros Hg j row Hj.
  apply generate_transactions_Ok in Hg as (_ & _ & Hrows).
  specialize (Hrows j row Hj).
  destruct Hrows as [_ _ _ Hq Hd _ _].
  split.
  - apply nth_error_In in Hq. simpl in Hq.
    intuition lia.
  - cbn zeta. rewrite Hd.
    change (wall_clock (shift (5 * j) j w) (clock_reads (shift (5 * j) j w)))
      with (wall_clock w (j + clock_reads w)).
    destruct (variate_at_range (shift (5 * j) j w) 3) as [Hu0 Hu1].
    pose proof (neg_log1m_nonneg _ Hu0 Hu1) as Hlog.
    assert (Hd0 : (0 <= neg_log1m (variate_at (shift (5 * j) j w) 3) * 30)%Q).
    { apply Qmult_le_0_compat; [exact Hlog | discriminate]. }
    pose proof (offset_range _ Hd0) as Hoff. lia.
Qed.

(** C6, on the three sales of the scenario: the third sale lies 18.75 days
    before its clock reading. *)
Lemma quantity_and_recency_bounds_witness :
  let w0 := world_of three_sales [1000; 2000; 3000] in
  let row := mkTransaction 3 3 1 5 (Qmake 9000 100) (Qmake 45000 100)
               (3000 - 1620000000000) Online in
  let txs :=
    [mkTransaction 1 1 1 1 (Qmake 11000 100) (Qmake 11000 100) 1000 Online;
     mkTransaction 2 2 1 1 (Qmake 10000 100) (Qmake 10000 100) 2000 Online;
     row] in
  @generate_transactions (tape_platform []) (mkGenerator 0 0 3)
    three_customers one_product w0 = Ok (txs, shift 15 3 w0) /\
  nth_error txs 2 = Some row /\
  1 <= quantity row <= 5 /\
  transaction_date row <= 3000 /\
  3000 - transaction_date row <= 365 * microseconds_per_day.
Proof.
  intros w0 row txs.
  assert (Hrun : @generate_transactions (tape_platform []) (mkGenerator 0 0 3)
                   three_customers one_product w0 = Ok (txs, shift 15 3 w0))
    by (vm_compute; reflexivity).
  split; [exact Hrun | split; [reflexivity |]].
  exact (@quantity_and_recency_bounds (tape_platform []) (mkGenerator 0 0 3)
           three_customers one_product w0 (shift 15 3 w0) txs Hrun
           2%nat row eq_refl).
Defined.

(** C7: given a transaction count [T >= 0] and non-empty customer and
    product tables, the synthesizer returns exactly [T] rows, their
    transaction ids are 1, 2, ..., T in row order, and every row's
    [customer_id] and [product_id] are keys of a row of the customer table
    and of the product table. *)
Theorem exactly_T_rows_with_resolving_keys `{Platform}
    (self : EcommerceDataGenerator) (customers : list Customer)
    (products : list Product) (w : World) :
  customers <> [] -> products <> [] -> 0 <= n_transactions self ->
  exists txs w',
    generate_transactions self customers products w = Ok (txs, w') /\
    Z.of_nat (length txs) = n_transactions self /\
    map transaction_id txs = range 1 (n_transactions self + 1) /\
    Forall (fun row =>
      (exists c, In c customers /\ customer_id c = tx_customer_id row) /\
      (exists p, In p products /\ product_id p = tx_product_id row)) txs.
Proof.
  intros Hcs Hps HT.
  destruct (generate_transactions_success self customers products w Hcs Hps)
    as (txs & Hg).
  exists txs. eexists. split; [exact Hg |].
  apply generate_transactions_Ok in Hg as (_ & Hlen & Hrows).
  split; [lia | split].
  - rewrite (map_by_index transaction_id txs (fun j => 1 + Z.of_nat j)).
    + unfold range. rewrite Hlen. do 2 f_equal. lia.
    + intros j row Hj. rewrite (drawn_id _ _ _ _ _ (Hrows j row Hj)). lia.
  - apply Forall_forall. intros row Hin.
    apply In_nth_error in Hin as (j & Hj).
    destruct (drawn_prices _ _ _ _ _ (Hrows j row Hj))
      as (c & p & Hc & Hp & _).
    apply find_some in Hc as [Hc Hcid], Hp as [Hp Hpid].
    split; [exists c | exists p]; split; auto; lia.
Qed.

(** C7, on the scenario: three rows, with ids 1, 2, 3. *)
Lemma exactly_T_rows_with_resolving_keys_witness :
  let w0 := world_of three_sales [1000; 2000; 3000] in
  three_customers <> [] /\ one_product <> [] /\ 0 <= 3 /\
  exists txs w',
    @generate_transactions (tape_platform []) (mkGenerator 0 0 3)
      three_customers one_product w0 = Ok (txs, w') /\
    Z.of_nat (length txs) = 3 /\
    map transaction_id txs = [1; 2; 3].
Proof.
  intros w0.
  split; [discriminate | split; [discriminate | split; [lia |]]].
  destruct (@exactly_T_rows_with_resolving_keys (tape_platform [])
              (mkGenerator 0 0 3) three_customers one_product w0
              ltac:(discriminate) ltac:(discriminate) ltac:(simpl; lia))
    as (txs & w' & Hg & Hlen & Hids & _).
  exists txs, w'. auto.
Defined.

(** C8: for a customer count [N >= 0] the customer generator returns a
    table of [N] rows whose ids are 1, 2, ..., N in row order: every id from
    1 to N occurs, no other id occurs, and none occurs twice.  (A negative
    count generates no table.) *)
Theorem customer_ids_are_1_to_N (self : EcommerceDataGenerator) (w : World) :
  (0 <= n_customers self ->
   exists customers w', generate_customers self w = Ok (customers, w')) /\
  (forall customers w',
     generate_customers self w = Ok (customers, w') ->
     Z.of_nat (length customers) = n_customers self /\
     map customer_id customers = range 1 (n_customers self + 1) /\
     NoDup (map customer_id customers) /\
     forall i, In i (map customer_id customers) <-> 1 <= i <= n_customers self).
Proof.
  split.
  - intros HN.
    destruct (generate_customers_success self w HN) as (cs & Hg & _).
    eauto.
  - intros customers w' Hg.
    apply generate_customers_Ok in Hg as (HN & _ & Hids).
    split; [| split; [exact Hids | split]].
    + rewrite <- (length_map customer_id), Hids, range_length. lia.
    + rewrite Hids. apply range_NoDup.
    + intros i. rewrite Hids, range_In. lia.
Qed.

(** C8, for three customers: the ids are 1, 2, 3. *)
Lemma customer_ids_are_1_to_N_witness :
  0 <= 3 /\
  exists customers w',
    generate_customers (mkGenerator 3 0 0) (world_of [] []) = Ok (customers, w') /\
    map customer_id customers = [1; 2; 3].
Proof.
  split; [lia |].
  destruct (customer_ids_are_1_to_N (mkGenerator 3 0 0) (world_of [] []))
    as [Hsome Hall].
  destruct (Hsome ltac:(simpl; lia)) as (customers & w' & Hg).
  exists customers, w'. split; [exact Hg |].
  exact (proj1 (proj2 (Hall customers w' Hg))).
Defined.

(** C9: every generated product row has
    [profit_margin = (base_price - cost) / base_price], computed from the
    row's own price and cost; nothing clamps it, so a row whose cost exceeds
    its base price carries a negative margin. *)
Theorem profit_margin_is_derived (self : EcommerceDataGenerator)
    (w w' : World) (products : list Product) :
  generate_products self w = Ok (products, w') ->
  Forall (fun p =>
    profit_margin p = ((base_price p - cost p) / base_price p)%Q /\
    ((base_price p < cost p)%Q -> (profit_margin p < 0)%Q)) products.
Proof.
  intros Hg.
  apply generate_products_Ok in Hg as (_ & _ & _ & Hprices & _ & Hmargin).
  rewrite Forall_forall in Hmargin |- *.
  intros p Hin. split; [now apply Hmargin |].
  intros Hlt. rewrite (Hmargin p Hin).
  assert (Hpos : (0 < base_price p)%Q).
  { assert (Hb : In (base_price p) (map base_price products))
      by now apply in_map.
    rewrite Hprices in Hb. unfold draws in Hb.
    apply in_map_iff in Hb as (k & <- & _).
    apply Qlt_le_trans with (y := 10%Q); [reflexivity |].
    apply drawn_price_at_least_10, variate_at_range. }
  apply Qlt_shift_div_r; [exact Hpos |].
  rewrite Qmult_0_l.
  apply (Qplus_lt_l _ _ (cost p)). ring_simplify. exact Hlt.
Qed.

(** C9, for one product whose price variate is the smallest and whose cost
    variate is the largest: the price is 10, the cost almost 300, and the
    margin is negative. *)
Lemma profit_margin_is_derived_witness :
  exists p w',
    generate_products (mkGenerator 0 1 0)
      (world_of [0; 0; 9007199254740991]%N []) = Ok ([p], w') /\
    (base_price p < cost p)%Q /\
    profit_margin p = ((base_price p - cost p) / base_price p)%Q /\
    (profit_margin p < 0)%Q.
Proof.
  do 2 eexists.
  assert (Hrun : generate_products (mkGenerator 0 1 0)
                   (world_of [0; 0; 9007199254740991]%N [])
                 = Ok ([mkProduct 1 Electronics
                          (Qmake 90071992547409920 9007199254740992)
                          (Qmake 2702159776422297305 9007199254740992)
                          ((Qmake 90071992547409920 9007199254740992
                            - Qmake 2702159776422297305 9007199254740992)
                           / Qmake 90071992547409920 9007199254740992)],
                       shift 3 0 (world_of [0; 0; 9007199254740991]%N [])))
    by (vm_compute; reflexivity).
  split; [exact Hrun |].
  pose proof (profit_margin_is_derived _ _ _ _ Hrun) as HF.
  apply Forall_inv in HF as [Hm Hneg].
  assert (Hlt : (Qmake 90071992547409920 9007199254740992
                 < Qmake 2702159776422297305 9007199254740992)%Q)
    by reflexivity.
  split; [exact Hlt | split; [exact Hm | exact (Hneg Hlt)]].
Defined.




(** * Further properties of the generator *)

(** ** Rounding: error and monotonicity *)

Lemma rint_comp (x y : Q) : (x == y)%Q -> rint x = rint y.
Proof.
  intros E. unfold rint. cbv zeta.
  rewrite (Qfloor_comp _ _ E).
  assert (E' : (x - inject_Z (Qfloor y) == y - inject_Z (Qfloor y))%Q)
    by now rewrite E.
  now rewrite (Qcompare_comp _ _ E' (1 # 2) (1 # 2) (Qeq_refl _)).
Qed.

(** The nearest integer is at most one half away. *)
Lemma rint_error (x : Q) :
  (x - (1 # 2) <= inject_Z (rint x))%Q /\ (inject_Z (rint x) <= x + (1 # 2))%Q.
Proof.
  pose proof (Qfloor_le x) as Hlo.
  pose proof (Qlt_floor x) as Hhi.
  rewrite inject_Z_plus in Hhi. change (inject_Z 1) with 1%Q in Hhi.
  unfold rint. cbv zeta.
  destruct (Qcompare_spec (x - inject_Z (Qfloor x)) (1 # 2)) as [E | E | E].
  - destruct (Z.even (Qfloor x)).
    + split; lra.
    + rewrite inject_Z_plus. change (inject_Z 1) with 1%Q. split; lra.
  - split; lra.
  - rewrite inject_Z_plus. change (inject_Z 1) with 1%Q. split; lra.
Qed.

Lemma rint_mono (x y : Q) : (x <= y)%Q -> rint x <= rint y.
Proof.
  intros Hxy.
  pose proof (Qfloor_resp_le _ _ Hxy) as Hf.
  destruct (Z.eq_dec (Qfloor x) (Qfloor y)) as [Ef | Nf].
  - unfold rint. cbv zeta. rewrite Ef.
    destruct (Qcompare_spec (x - inject_Z (Qfloor y)) (1 # 2)) as [E1 | E1 | E1];
      destruct (Qcompare_spec (y - inject_Z (Qfloor y)) (1 # 2))
        as [E2 | E2 | E2];
      try destruct (Z.even (Qfloor y)); try lia; exfalso; lra.
  - assert (Hlt : Qfloor x + 1 <= Qfloor y) by lia.
    destruct (rint_floor_or_next x) as [-> | ->],
             (rint_floor_or_next y) as [-> | ->]; lia.
Qed.

Lemma round2_mono (x y : Q) : (x <= y)%Q -> (round2 x <= round2 y)%Q.
Proof.
  intros Hxy. unfold round2, Qle. simpl.
  assert (H100 : (x * 100 <= y * 100)%Q) by lra.
  pose proof (rint_mono _ _ H100). lia.
Qed.

(** Rounding to two decimals moves a number by at most half a cent. *)
Lemma round2_error (x : Q) :
  (x - (1 # 200) <= round2 x)%Q /\ (round2 x <= x + (1 # 200))%Q.
Proof.
  destruct (rint_error (x * 100)) as [Hlo Hhi].
  assert (E : (round2 x == inject_Z (rint (x * 100)) / 100)%Q).
  { unfold round2. rewrite (Qmake_Qdiv (rint (x * 100)) 100). reflexivity. }
  rewrite E. split.
  - apply Qle_shift_div_l; [reflexivity | lra].
  - apply Qle_shift_div_r; [reflexivity | lra].
Qed.

(** A whole number of cents is its own rounding. *)
Lemma round2_cents (z : Z) : round2 (Qmake z 100) = Qmake z 100.
Proof.
  unfold round2. f_equal.
  rewrite (rint_comp _ (inject_Z z)).
  - unfold rint. cbv zeta. rewrite Qfloor_Z.
    destruct (Qcompare_spec (inject_Z z - inject_Z z) (1 # 2))
      as [E | E | E]; [exfalso; lra | reflexivity | exfalso; lra].
  - rewrite (Qmake_Qdiv z 100). field.
Qed.

Lemma round2_comp (x y : Q) : (x == y)%Q -> round2 x = round2 y.
Proof.
  intros E. unfold round2. f_equal. apply rint_comp. now rewrite E.
Qed.

(** ** Stored prices *)

(** X1: in every generated transaction row the stored total is within half
    a cent per unit, plus half a cent, of quantity times the stored unit
    price, so never more than three cents away; for a quantity of one the
    two stored amounts are equal. *)
Theorem stored_total_near_quantity_times_unit_price `{Platform}
    (self : EcommerceDataGenerator) (customers : list Customer)
    (products : list Product) (w w' : World) (txs : list Transaction) :
  generate_transactions self customers products w = Ok (txs, w') ->
  Forall (fun row =>
    let q := inject_Z (quantity row) in
    (Qabs (total_amount row - q * unit_price row) <= (q + 1) * (1 # 200))%Q /\
    (Qabs (total_amount row - q * unit_price row) <= 3 # 100)%Q /\
    (quantity row = 1 -> total_amount row = unit_price row)) txs.
Proof.
  intros Hg. apply Forall_forall. intros row Hin.
  destruct (generated_row_drawn _ _ _ _ _ _ _ Hg Hin) as (i & w0 & Hrow).
  destruct (drawn_prices _ _ _ _ _ Hrow) as (c & p & _ & _ & Hu & Ht).
  pose proof (drawn_quantity _ _ _ _ _ Hrow) as Hq.
  apply nth_error_In in Hq. cbv zeta.
  set (u := (base_price p * price_multiplier (customer_segment c))%Q) in *.
  rewrite Hu, Ht.
  destruct (round2_error u) as [Hu1 Hu2].
  assert (Hcases : quantity row = 1 \/ quantity row = 2 \/ quantity row = 3 \/
                   quantity row = 4 \/ quantity row = 5)
    by (simpl in Hq; intuition auto).
  destruct Hcases as [E | [E | [E | [E | E]]]]; rewrite E;
    match goal with
    | |- context [inject_Z ?z] =>
        destruct (round2_error (inject_Z z * u)) as [Ht1 Ht2];
        change (inject_Z z) with (Qmake z 1) in *
    end;
    (split; [apply Qabs_Qle_condition; split; lra |
     split; [apply Qabs_Qle_condition; split; lra |]]);
    intros Hone; try discriminate Hone.
  apply round2_comp. ring.
Qed.

(** X1, on the sale of the counterexample of C1: quantity 5, unit price
    10.00, total 50.02; the gap of two cents is within the bound. *)
Lemma stored_total_near_quantity_times_unit_price_witness :
  let customers := [mkCustomer 1 Standard North 0 Age18_25] in
  let products := [mkProduct 1 Books 100.004 60 0.4] in
  let w0 := world_of [0; 0; 9007199254740991]%N [0] in
  let row := mkTransaction 1 1 1 5 (Qmake 10000 100) (Qmake 50002 100)
               0 Online in
  @generate_transactions (tape_platform []) (mkGenerator 0 0 1)
    customers products w0 = Ok ([row], shift 5 1 w0) /\
  (Qabs (total_amount row - 5 * unit_price row) <= 3 # 100)%Q.
Proof.
  intros customers products w0 row.
  assert (Hrun : @generate_transactions (tape_platform []) (mkGenerator 0 0 1)
                   customers products w0 = Ok ([row], shift 5 1 w0))
    by (vm_compute; reflexivity).
  split; [exact Hrun |].
  pose proof (@stored_total_near_quantity_times_unit_price (tape_platform [])
                (mkGenerator 0 0 1) customers products w0 (shift 5 1 w0)
                [row] Hrun) as HF.
  apply Forall_inv in HF. exact (proj1 (proj2 HF)).
Defined.

(** ** The product table *)

(** X2: for a product count [M >= 0] the product generator returns a table
    of [M] rows whose ids are 1, 2, ..., M in row order, each once; a
    negative count raises and returns no table. *)
Theorem product_ids_are_1_to_M (self : EcommerceDataGenerator) (w : World) :
  (0 <= n_products self ->
   exists products w', generate_products self w = Ok (products, w')) /\
  (n_products self < 0 ->
   exists msg, generate_products self w = Raise (ValueError msg)) /\
  (forall products w',
     generate_products self w = Ok (products, w') ->
     Z.of_nat (length products) = n_products self /\
     map product_id products = range 1 (n_products self + 1) /\
     NoDup (map product_id products) /\
     forall i, In i (map product_id products) <-> 1 <= i <= n_products self).
Proof.
  split; [| split].
  - intros HM.
    destruct (generate_products_success self w HM) as (ps & Hg & _).
    eauto.
  - apply generate_products_negative.
  - intros products w' Hg.
    apply generate_products_Ok in Hg as (HM & _ & Hids & _).
    split; [| split; [exact Hids | split]].
    + now apply (map_range_length product_id).
    + rewrite Hids. apply range_NoDup.
    + intros i. rewrite Hids, range_In. lia.
Qed.

(** X2, for two products. *)
Lemma product_ids_are_1_to_M_witness :
  0 <= 2 /\
  exists products w',
    generate_products (mkGenerator 0 2 0) (world_of [] []) = Ok (products, w') /\
    map product_id products = [1; 2].
Proof.
  split; [lia |].
  destruct (product_ids_are_1_to_M (mkGenerator 0 2 0) (world_of [] []))
    as (Hsome & _ & Hall).
  destruct (Hsome ltac:(simpl; lia)) as (products & w' & Hg).
  exists products, w'. split; [exact Hg |].
  exact (proj1 (proj2 (Hall products w' Hg))).
Defined.

Lemma drawn_in_range (low high u : Q) :
  (low <= high)%Q -> (0 <= u)%Q -> (u < 1)%Q ->
  (low <= low + (high - low) * u)%Q /\
  (high <= low \/ low + (high - low) * u < high)%Q.
Proof.
  intros Hlh Hu0 Hu1.
  assert (Hprod : (0 <= (high - low) * u)%Q)
    by (apply Qmult_le_0_compat; lra).
  split; [lra |].
  destruct (Qlt_le_dec low high) as [Hlt | Hge]; [right | now left].
  assert (Hlt' : ((high - low) * u < (high - low) * 1)%Q).
  { apply Qmult_lt_l; lra. }
  lra.
Qed.

Lemma product_price_and_cost_ranges (self : EcommerceDataGenerator)
    (w w' : World) (products : list Product) (p : Product) :
  generate_products self w = Ok (products, w') -> In p products ->
  (10 <= base_price p)%Q /\ (base_price p < 500)%Q /\
  (5 <= cost p)%Q /\ (cost p < 300)%Q.
Proof.
  intros Hg Hin.
  apply generate_products_Ok in Hg as (_ & _ & _ & Hprices & Hcosts & _).
  assert (Hb : In (base_price p) (map base_price products))
    by now apply in_map.
  rewrite Hprices in Hb. unfold draws in Hb.
  apply in_map_iff in Hb as (k & Hb & _).
  destruct (variate_at_range
              (shift (Z.to_nat (n_products self)) 0 w) k) as [Hu0 Hu1].
  destruct (drawn_in_range 10 500 _ ltac:(discriminate) Hu0 Hu1)
    as [Hlo [Hbad | Hhi]]; [exfalso; lra |].
  rewrite Hb in Hlo, Hhi.
  assert (Hc : In (cost p) (map cost products)) by now apply in_map.
  rewrite Hcosts in Hc. unfold draws in Hc.
  apply in_map_iff in Hc as (k' & Hc & _).
  destruct (variate_at_range
              (shift (2 * Z.to_nat (n_products self)) 0 w) k') as [Hv0 Hv1].
  destruct (drawn_in_range 5 300 _ ltac:(discriminate) Hv0 Hv1)
    as [Hlo' [Hbad | Hhi']]; [exfalso; lra |].
  rewrite Hc in Hlo', Hhi'. auto.
Qed.

(** X3: every generated product has a base price in [10, 500) and a cost in
    [5, 300); its profit margin lies strictly between -29 and 0.99. *)
Theorem product_prices_in_range (self : EcommerceDataGenerator)
    (w w' : World) (products : list Product) :
  generate_products self w = Ok (products, w') ->
  Forall (fun p =>
    (10 <= base_price p)%Q /\ (base_price p < 500)%Q /\
    (5 <= cost p)%Q /\ (cost p < 300)%Q /\
    (-(29) < profit_margin p)%Q /\ (profit_margin p < 99 # 100)%Q) products.
Proof.
  intros Hg. apply Forall_forall. intros p Hin.
  destruct (product_price_and_cost_ranges _ _ _ _ _ Hg Hin)
    as (Hb1 & Hb2 & Hc1 & Hc2).
  apply generate_products_Ok in Hg as (_ & _ & _ & _ & _ & Hmargin).
  rewrite Forall_forall in Hmargin.
  repeat split; try assumption; rewrite (Hmargin p Hin).
  - apply Qlt_shift_div_l; lra.
  - apply Qlt_shift_div_r; lra.
Qed.

(** X3, for the product of the instance of C9: price 10, cost just under
    300, margin just above -29. *)
Lemma product_prices_in_range_witness :
  exists p w',
    generate_products (mkGenerator 0 1 0)
      (world_of [0; 0; 9007199254740991]%N []) = Ok ([p], w') /\
    (10 <= base_price p)%Q /\ (cost p < 300)%Q /\ (-(29) < profit_margin p)%Q.
Proof.
  assert (Hrun : exists p w',
             generate_products (mkGenerator 0 1 0)
               (world_of [0; 0; 9007199254740991]%N []) = Ok ([p], w'))
    by (do 2 eexists; vm_compute; reflexivity).
  destruct Hrun as (p & w' & Hrun).
  exists p, w'. split; [exact Hrun |].
  pose proof (product_prices_in_range _ _ _ _ Hrun) as HF.
  apply Forall_inv in HF. tauto.
Defined.

(** ** The customer table: registration dates *)







(** ** Whole generations *)

(** X5: with at least one customer, at least one product and a transaction
    count [T >= 0], [generate_all_data] returns the three tables, with N, M
    and T rows, and every transaction refers to a customer id between 1 and
    N and a product id between 1 and M. *)
Theorem all_tables_generated_with_valid_keys `{Platform}
    (self : EcommerceDataGenerator) (w : World) :
  1 <= n_customers self -> 1 <= n_products self ->
  0 <= n_transactions self ->
  exists customers products txs w',
    generate_all_data self w = Ok ((customers, products, txs), w') /\
    Z.of_nat (length customers) = n_customers self /\
    Z.of_nat (length products) = n_products self /\
    Z.of_nat (length txs) = n_transactions self /\
    Forall (fun row =>
      1 <= tx_customer_id row <= n_customers self /\
      1 <= tx_product_id row <= n_products self) txs.
Proof.
  intros HN HM HT. unfold generate_all_data.
  destruct (generate_customers_success self w ltac:(lia)) as (cs & Hcs & Hcids).
  rewrite (bind_step _ _ _ _ _ Hcs).
  destruct (generate_products_success self
              (shift (3 * Z.to_nat (n_customers self)) 0 w) ltac:(lia))
    as (ps & Hps & Hpids & _).
  rewrite (bind_step _ _ _ _ _ Hps).
  pose proof (map_range_length customer_id cs (n_customers self)
                ltac:(lia) Hcids) as Lcs.
  pose proof (map_range_length product_id ps (n_products self)
                ltac:(lia) Hpids) as Lps.
  assert (Ncs : cs <> []) by (intros ->; simpl in Lcs; lia).
  assert (Nps : ps <> []) by (intros ->; simpl in Lps; lia).
  destruct (generate_transactions_success self cs ps
              (shift (3 * Z.to_nat (n_products self)) 0
                 (shift (3 * Z.to_nat (n_customers self)) 0 w)) Ncs Nps)
    as (txs & Hts).
  rewrite (bind_step _ _ _ _ _ Hts).
  exists cs, ps, txs. eexists. split; [reflexivity |].
  apply generate_transactions_Ok in Hts as (_ & Hlen & Hrows).
  repeat split; try lia.
  apply Forall_forall. intros row Hin.
  apply In_nth_error in Hin as (j & Hj).
  specialize (Hrows j row Hj).
  pose proof (nth_error_In _ _ (drawn_customer _ _ _ _ _ Hrows)) as Hc.
  pose proof (nth_error_In _ _ (drawn_product _ _ _ _ _ Hrows)) as Hp.
  rewrite Hcids in Hc. rewrite Hpids in Hp.
  apply range_In in Hc, Hp. lia.
Qed.

(** X5, for the stream of one sale. *)
Lemma all_tables_generated_with_valid_keys_witness :
  1 <= 1 /\ 0 <= 1 /\
  exists customers products txs w',
    @generate_all_data (tape_platform []) (mkGenerator 1 1 1)
      (world_of one_sale [0]) = Ok ((customers, products, txs), w') /\
    Z.of_nat (length txs) = 1 /\
    Forall (fun row => 1 <= tx_customer_id row <= 1 /\
                       1 <= tx_product_id row <= 1) txs.
Proof.
  split; [lia | split; [lia |]].
  destruct (@all_tables_generated_with_valid_keys (tape_platform [])
              (mkGenerator 1 1 1) (world_of one_sale [0])
              ltac:(simpl; lia) ltac:(simpl; lia) ltac:(simpl; lia))
    as (cs & ps & txs & w' & Hg & _ & _ & Hlen & Hkeys).
  exists cs, ps, txs, w'. auto.
Defined.

Lemma round2_between (lo hi : Z) (x : Q) :
  (Qmake lo 100 <= x)%Q -> (x <= Qmake hi 100)%Q ->
  (Qmake lo 100 <= round2 x)%Q /\ (round2 x <= Qmake hi 100)%Q.
Proof.
  intros Hlo Hhi. split.
  - rewrite <- (round2_cents lo). now apply round2_mono.
  - rewrite <- (round2_cents hi). now apply round2_mono.
Qed.

Lemma price_multiplier_range (s : Segment) :
  (9 # 10 <= price_multiplier s)%Q /\ (price_multiplier s <= 11 # 10)%Q.
Proof. destruct s; split; discriminate. Qed.

(** The stored amounts of a row drawn from products priced in [10, 500). *)
Lemma drawn_amounts_bounded `{Platform} (customers : list Customer)
    (products : list Product) (i : Z) (w : World) (row : Transaction) :
  (forall p, In p products -> (10 <= base_price p)%Q /\ (base_price p < 500)%Q) ->
  drawn_row customers products i w row ->
  (9 <= unit_price row)%Q /\ (unit_price row <= 550)%Q /\
  (unit_price row <= total_amount row)%Q /\ (total_amount row <= 2750)%Q.
Proof.
  intros Hprices Hrow.
  destruct (drawn_prices _ _ _ _ _ Hrow) as (c & p & _ & Hp & Hu & Ht).
  pose proof (drawn_quantity _ _ _ _ _ Hrow) as Hq.
  apply nth_error_In in Hq.
  apply find_some in Hp as [Hp _].
  destruct (Hprices p Hp) as (Hb1 & Hb2).
  destruct (price_multiplier_range (customer_segment c)) as [Hm1 Hm2].
  cbv zeta in Hu, Ht.
  set (b := base_price p) in *.
  set (m := price_multiplier (customer_segment c)) in *.
  assert (Hu1 : (9 <= b * m)%Q).
  { apply Qle_trans with (y := (10 * m)%Q); [lra |].
    apply Qmult_le_compat_r; lra. }
  assert (Hu2 : (b * m <= 550)%Q).
  { apply Qle_trans with (y := (500 * m)%Q); [| lra].
    apply Qmult_le_compat_r; lra. }
  set (u := (b * m)%Q) in *.
  assert (Hcases : quantity row = 1 \/ quantity row = 2 \/ quantity row = 3 \/
                   quantity row = 4 \/ quantity row = 5)
    by (simpl in Hq; intuition auto).
  assert (Hqu : (u <= inject_Z (quantity row) * u)%Q /\
                (inject_Z (quantity row) * u <= 2750)%Q).
  { destruct Hcases as [E | [E | [E | [E | E]]]]; rewrite E;
      match goal with
      | |- context [inject_Z ?z] => change (inject_Z z) with (Qmake z 1)
      end; split; lra. }
  destruct Hqu as [Hqu1 Hqu2].
  rewrite Hu, Ht.
  destruct (round2_between 900 55000 u ltac:(lra) ltac:(lra)) as [Hr1 Hr2].
  destruct (round2_between 900 275000 (inject_Z (quantity row) * u)
              ltac:(lra) ltac:(lra)) as [_ Hr3].
  pose proof (round2_mono _ _ Hqu1) as Hr4.
  repeat split; try assumption; lra.
Qed.

(** X6: in the tables of one generation every transaction has a stored unit
    price between 9.00 and 550.00 and a stored total between its unit price
    and 2750.00; no price or total is zero or negative. *)
Theorem generated_amounts_bounded `{Platform}
    (self : EcommerceDataGenerator) (w w' : World)
    (customers : list Customer) (products : list Product)
    (txs : list Transaction) :
  generate_all_data self w = Ok ((customers, products, txs), w') ->
  Forall (fun row =>
    (9 <= unit_price row)%Q /\ (unit_price row <= 550)%Q /\
    (unit_price row <= total_amount row)%Q /\
    (total_amount row <= 2750)%Q) txs.
Proof.
  intros Hg.
  apply generate_all_data_Ok in Hg as (_ & Hps & Hts & _).
  apply Forall_forall. intros row Hin.
  destruct (generated_row_drawn _ _ _ _ _ _ _ Hts Hin) as (i & w0 & Hrow).
  apply (drawn_amounts_bounded customers products i w0); [| exact Hrow].
  intros p Hp.
  destruct (product_price_and_cost_ranges _ _ _ _ _ Hps Hp)
    as (Hb1 & Hb2 & _).
  now split.
Qed.

(** X6, for the stream of one sale: unit price 10.00, total 50.02. *)
Lemma generated_amounts_bounded_witness :
  exists customers products row w',
    @generate_all_data (tape_platform []) (mkGenerator 1 1 1)
      (world_of one_sale [0]) = Ok ((customers, products, [row]), w') /\
    (9 <= unit_price row)%Q /\ (unit_price row <= total_amount row)%Q /\
    (total_amount row <= 2750)%Q.
Proof.
  assert (Hrun : exists customers products row w',
             @generate_all_data (tape_platform []) (mkGenerator 1 1 1)
               (world_of one_sale [0])
             = Ok ((customers, products, [row]), w'))
    by (do 4 eexists; vm_compute; reflexivity).
  destruct Hrun as (cs & ps & row & w' & Hrun).
  exists cs, ps, row, w'. split; [exact Hrun |].
  pose proof (@generated_amounts_bounded (tape_platform []) _ _ _ _ _ _ Hrun)
    as HF.
  apply Forall_inv in HF. tauto.
Defined.

(** ** Asking for more transactions *)

Section Extension.
Context `{Platform}.

(** The rows the loop appends do not depend on the rows it starts with. *)
Lemma transaction_loop_acc (customers : list Customer)
    (products : list Product) (customer_weights : list Q) (todo : nat) :
  forall (i : Z) (acc : list Transaction) (w : World),
  transaction_loop customers products customer_weights todo i acc w
  = match transaction_loop customers products customer_weights todo i [] w with
    | Ok (rows, w') => Ok (acc ++ rows, w')
    | Raise e => Raise e
    end.
Proof.
  induction todo as [| k IH]; intros i acc w.
  - cbn. unfold ret. now rewrite app_nil_r.
  - cbn [transaction_loop]. unfold bind.
    destruct (transaction_row customers products customer_weights i w)
      as [[row w1] | e]; [| reflexivity].
    rewrite (IH (i + 1) (acc ++ [row]) w1), (IH (i + 1) ([] ++ [row]) w1).
    destruct (transaction_loop customers products customer_weights k
                (i + 1) [] w1) as [[rows w'] | e]; [| reflexivity].
    now rewrite <- app_assoc.
Qed.

(** [a + b] iterations are [a] iterations followed by [b] more. *)
Lemma transaction_loop_split (customers : list Customer)
    (products : list Product) (customer_weights : list Q) (a b : nat) :
  forall (i : Z) (acc : list Transaction) (w : World),
  transaction_loop customers products customer_weights (a + b) i acc w
  = bind (transaction_loop customers products customer_weights a i acc)
         (fun acc' =>
            transaction_loop customers products customer_weights b
              (i + Z.of_nat a) acc') w.
Proof.
  induction a as [| a IH]; intros i acc w.
  - cbn. now rewrite Z.add_0_r.
  - cbn [Nat.add transaction_loop]. unfold bind.
    destruct (transaction_row customers products customer_weights i w)
      as [[row w1] | e]; [| reflexivity].
    rewrite IH. unfold bind.
    replace (i + 1 + Z.of_nat a) with (i + Z.of_nat (S a)) by lia.
    reflexivity.
Qed.

Lemma generate_transactions_prefix (self1 self2 : EcommerceDataGenerator)
    (customers : list Customer) (products : list Product)
    (w w2 : World) (txs2 : list Transaction) :
  n_transactions self1 <= n_transactions self2 ->
  generate_transactions self2 customers products w = Ok (txs2, w2) ->
  exists w1,
    generate_transactions self1 customers products w
    = Ok (firstn (Z.to_nat (n_transactions self1)) txs2, w1).
Proof.
  intros HT Hg2. unfold generate_transactions in *.
  set (t1 := Z.to_nat (n_transactions self1)).
  replace (Z.to_nat (n_transactions self2))
    with (t1 + (Z.to_nat (n_transactions self2) - t1))%nat in Hg2
    by (unfold t1; lia).
  rewrite transaction_loop_split in Hg2.
  apply bind_Ok in Hg2 as (txs1 & w1 & Hg1 & Hrest).
  rewrite transaction_loop_acc in Hrest.
  destruct (transaction_loop _ _ _ _ _ [] w1) as [[rows w3] | e];
    [| discriminate].
  injection Hrest as <- <-.
  exists w1. rewrite Hg1. do 2 f_equal.
  apply transaction_loop_Ok in Hg1 as (_ & rows1 & -> & Hlen & _).
  cbn [app]. rewrite <- Hlen. rewrite firstn_app, Nat.sub_diag, firstn_all.
  cbn. now rewrite app_nil_r.
Qed.

End Extension.

(** X7: a generator that differs only by a larger transaction count
    produces the same customer table, the same product table, and a
    transaction table that begins with the rows of the smaller one: asking
    for more transactions only appends rows (in the same world, that is with
    the same random state and the same clock readings). *)
Theorem more_transactions_only_append `{Platform}
    (self1 self2 : EcommerceDataGenerator) (w w2 : World)
    (customers : list Customer) (products : list Product)
    (txs2 : list Transaction) :
  n_customers self1 = n_customers self2 ->
  n_products self1 = n_products self2 ->
  n_transactions self1 <= n_transactions self2 ->
  generate_all_data self2 w = Ok ((customers, products, txs2), w2) ->
  exists w1,
    generate_all_data self1 w
    = Ok ((customers, products,
           firstn (Z.to_nat (n_transactions self1)) txs2), w1).
Proof.
  intros HN HM HT Hg2.
  apply generate_all_data_Ok in Hg2 as (Hcs & Hps & Hts & _).
  assert (Hcs1 : generate_customers self1 w
                 = Ok (customers, shift (3 * Z.to_nat (n_customers self2)) 0 w)).
  { rewrite <- Hcs. unfold generate_customers. now rewrite HN. }
  assert (Hps1 : generate_products self1
                   (shift (3 * Z.to_nat (n_customers self2)) 0 w)
                 = Ok (products,
                       shift (3 * Z.to_nat (n_customers self2)
                              + 3 * Z.to_nat (n_products self2)) 0 w)).
  { rewrite <- Hps. unfold generate_products. now rewrite HM. }
  destruct (generate_transactions_prefix self1 self2 _ _ _ _ _ HT Hts)
    as (w1 & Hts1).
  exists w1. unfold generate_all_data.
  rewrite (bind_step _ _ _ _ _ Hcs1), (bind_step _ _ _ _ _ Hps1).
  now rewrite (bind_step _ _ _ _ _ Hts1).
Qed.

(** X7, on the scenario: the table of two sales is the first two rows of
    the table of three. *)
Lemma more_transactions_only_append_witness :
  exists customers products txs2 t1 t2 t3 w2 w1,
    @generate_all_data (tape_platform []) (mkGenerator 1 1 3)
      (world_of one_sale [10; 20; 30]) = Ok ((customers, products, txs2), w2) /\
    txs2 = [t1; t2; t3] /\
    @generate_all_data (tape_platform []) (mkGenerator 1 1 2)
      (world_of one_sale [10; 20; 30]) = Ok ((customers, products, [t1; t2]), w1).
Proof.
  assert (Hrun : exists customers products t1 t2 t3 w2,
             @generate_all_data (tape_platform []) (mkGenerator 1 1 3)
               (world_of one_sale [10; 20; 30])
             = Ok ((customers, products, [t1; t2; t3]), w2))
    by (do 6 eexists; vm_compute; reflexivity).
  destruct Hrun as (cs & ps & t1 & t2 & t3 & w2 & Hrun).
  destruct (@more_transactions_only_append (tape_platform [])
              (mkGenerator 1 1 2) (mkGenerator 1 1 3)
              (world_of one_sale [10; 20; 30]) w2 cs ps [t1; t2; t3]
              eq_refl eq_refl ltac:(simpl; lia) Hrun) as (w1 & Hrun1).
  exists cs, ps, [t1; t2; t3], t1, t2, t3, w2, w1.
  split; [exact Hrun | split; [reflexivity | exact Hrun1]].
Defined.

(** ** Selection weights *)

(** X8: for a non-empty customer table the selection weights are positive
    and sum to one, and they are proportional to the segment weights: for
    any two customers, weight times the other's segment weight agree, so a
    Premium customer is three times as likely to be drawn as a Basic one and
    one and a half times as likely as a Standard one. *)
Theorem selection_weights_normalised (customers : list Customer) :
  customers <> [] ->
  (Qsum (normalized_weights customers) == 1)%Q /\
  length (normalized_weights customers) = length customers /\
  Forall (fun x => (0 < x)%Q) (normalized_weights customers) /\
  (forall i j ci cj xi xj,
     nth_error customers i = Some ci -> nth_error customers j = Some cj ->
     nth_error (normalized_weights customers) i = Some xi ->
     nth_error (normalized_weights customers) j = Some xj ->
     (xi * segment_weight (customer_segment cj)
      == xj * segment_weight (customer_segment ci))%Q).
Proof.
  intros Hcs. pose proof (weights_total_pos customers Hcs) as Hpos.
  unfold normalized_weights.
  set (total := Qsum (map (fun c => segment_weight (customer_segment c))
                        customers)) in *.
  split; [| split; [| split]].
  - rewrite Qsum_map_div. fold total. field. lra.
  - now rewrite !length_map.
  - apply Forall_map, Forall_map, Forall_forall. intros c _.
    apply Qlt_shift_div_l; [exact Hpos |].
    rewrite Qmult_0_l. apply segment_weight_pos.
  - intros i j ci cj xi xj Hi Hj Hxi Hxj.
    rewrite map_map in Hxi, Hxj.
    rewrite (map_nth_error _ _ _ Hi) in Hxi.
    rewrite (map_nth_error _ _ _ Hj) in Hxj.
    injection Hxi as <-. injection Hxj as <-.
    field. lra.
Qed.

(** X8, on the scenario of one customer per segment: the weights are one
    half, one third and one sixth. *)
Lemma selection_weights_normalised_witness :
  three_customers <> [] /\
  (Qsum (normalized_weights three_customers) == 1)%Q /\
  Forall2 Qeq (normalized_weights three_customers) [1 # 2; 1 # 3; 1 # 6].
Proof.
  split; [discriminate | split].
  - exact (proj1 (selection_weights_normalised three_customers
                    ltac:(discriminate))).
  - repeat constructor; reflexivity.
Defined.

(** ** Foreign keys *)

Lemma NoDup_map_eq {A B} (f : A -> B) (l : list A) (x y : A) :
  NoDup (map f l) -> In x l -> In y l -> f x = f y -> x = y.
Proof.
  induction l as [| a l IH]; cbn [map In]; [tauto |].
  intros Hnd Hx Hy Hxy. inversion Hnd as [| ? ? Hnotin Hnd']; subst.
  destruct Hx as [-> | Hx], Hy as [-> | Hy]; auto.
  - exfalso. apply Hnotin. rewrite Hxy. now apply in_map.
  - exfalso. apply Hnotin. rewrite <- Hxy. now apply in_map.
Qed.

(** X9: in the tables of one generation every transaction's [customer_id]
    is the key of exactly one customer row and its [product_id] the key of
    exactly one product row, and the stored unit price is computed from that
    pair of rows. *)
Theorem foreign_keys_resolve_uniquely `{Platform}
    (self : EcommerceDataGenerator) (w w' : World)
    (customers : list Customer) (products : list Product)
    (txs : list Transaction) :
  generate_all_data self w = Ok ((customers, products, txs), w') ->
  Forall (fun row =>
    exists c p,
      (forall c', In c' customers /\ customer_id c' = tx_customer_id row
                  <-> c' = c) /\
      (forall p', In p' products /\ product_id p' = tx_product_id row
                  <-> p' = p) /\
      unit_price row
      = round2 (base_price p * price_multiplier (customer_segment c))) txs.
Proof.
  intros Hg.
  apply generate_all_data_Ok in Hg as (Hcs & Hps & Hts & _).
  apply generate_customers_Ok in Hcs as (_ & _ & Hcids).
  apply generate_products_Ok in Hps as (_ & _ & Hpids & _).
  assert (NDc : NoDup (map customer_id customers))
    by (rewrite Hcids; apply range_NoDup).
  assert (NDp : NoDup (map product_id products))
    by (rewrite Hpids; apply range_NoDup).
  apply Forall_forall. intros row Hin.
  destruct (generated_row_drawn _ _ _ _ _ _ _ Hts Hin) as (i & w0 & Hrow).
  destruct (drawn_prices _ _ _ _ _ Hrow) as (c & p & Hc & Hp & Hu & _).
  apply find_some in Hc as [Hc Hcid], Hp as [Hp Hpid].
  apply Z.eqb_eq in Hcid, Hpid.
  exists c, p. split; [| split; [| exact Hu]].
  - intros c'. split.
    + intros [Hc' Hid]. apply (NoDup_map_eq customer_id customers); auto.
      congruence.
    + intros ->. auto.
  - intros p'. split.
    + intros [Hp' Hid]. apply (NoDup_map_eq product_id products); auto.
      congruence.
    + intros ->. auto.
Qed.

(** X9, for the stream of one sale. *)
Lemma foreign_keys_resolve_uniquely_witness :
  exists customers products row w',
    @generate_all_data (tape_platform []) (mkGenerator 1 1 1)
      (world_of one_sale [0]) = Ok ((customers, products, [row]), w') /\
    exists c p,
      (forall c', In c' customers /\ customer_id c' = tx_customer_id row
                  <-> c' = c) /\
      (forall p', In p' products /\ product_id p' = tx_product_id row
                  <-> p' = p).
Proof.
  assert (Hrun : exists customers products row w',
             @generate_all_data (tape_platform []) (mkGenerator 1 1 1)
               (world_of one_sale [0])
             = Ok ((customers, products, [row]), w'))
    by (do 4 eexists; vm_compute; reflexivity).
  destruct Hrun as (cs & ps & row & w' & Hrun).
  exists cs, ps, row, w'. split; [exact Hrun |].
  pose proof (@foreign_keys_resolve_uniquely (tape_platform [])
                _ _ _ _ _ _ Hrun) as HF.
  apply Forall_inv in HF as (c & p & Hc & Hp & _).
  exists c, p. auto.
Defined.

(** * Properties of saving and of the script *)



(** What [save_data] does on writable paths, up to the revenue line. *)
Lemma save_data_eq (customers : list Customer) (products : list Product)
    (transactions : list Transaction) (folder : string) (d : Disk) :
  can_write d (folder ++ "customers.csv") = true ->
  can_write d (folder ++ "products.csv") = true ->
  can_write d (folder ++ "transactions.csv") = true ->
  let written :=
    mkDisk (can_write d)
      ((folder ++ "transactions.csv", TransactionsCsv transactions)%string
       :: (folder ++ "products.csv", ProductsCsv products)%string
       :: (folder ++ "customers.csv", CustomersCsv customers)%string
       :: files d)
      (stdout d
       ++ ["Data generated and saved:";
           "- Customers: " ++ format_int (Z.of_nat (length customers));
           "- Products: " ++ format_int (Z.of_nat (length products));
           "- Transactions: "
           ++ format_int (Z.of_nat (length transactions))]%string) in
  save_data customers products transactions folder d
  = match transactions with
    | [] => (inr (KeyError "total_amount"), written)
    | _ :: _ =>
        (inl tt,
         mkDisk (can_write d) (files written)
           (stdout written
            ++ [("- Total Revenue: $"
                 ++ format_money (Qsum (map total_amount transactions)))
                %string]))
    end.
Proof.
  intros Hc Hp Ht written.
  unfold save_data, io_bind, to_csv, print, total_amount_sum.
  cbv beta. rewrite Hc. cbv beta iota. cbn [can_write files stdout].
  rewrite Hp. cbv beta iota. cbn [can_write files stdout].
  rewrite Ht. cbv beta iota. cbn [can_write files stdout].
  unfold written. rewrite <- !app_assoc. cbn [app].
  now destruct transactions.
Qed.



(** ** The script: generation, then saving *)

Section Script.
Context `{Platform}.

Lemma generate_all_data_without_transactions (self : EcommerceDataGenerator)
    (w : World) :
  0 <= n_customers self -> 0 <= n_products self -> n_transactions self <= 0 ->
  exists customers products w',
    generate_all_data self w = Ok ((customers, products, []), w') /\
    Z.of_nat (length customers) = n_customers self /\
    Z.of_nat (length products) = n_products self.
Proof.
  intros HN HM HT. unfold generate_all_data.
  destruct (generate_customers_success self w HN) as (cs & Hcs & Hcids).
  rewrite (bind_step _ _ _ _ _ Hcs).
  destruct (generate_products_success self
              (shift (3 * Z.to_nat (n_customers self)) 0 w) HM)
    as (ps & Hps & Hpids & _).
  rewrite (bind_step _ _ _ _ _ Hps).
  rewrite (bind_step _ _ _ _ _ (generate_transactions_none self cs ps _ HT)).
  exists cs, ps. eexists. split; [reflexivity |].
  split; eapply map_range_length; eauto.
Qed.

Lemma generate_all_data_with_transactions (self : EcommerceDataGenerator)
    (w : World) :
  1 <= n_customers self -> 1 <= n_products self ->
  1 <= n_transactions self ->
  exists customers products txs w',
    generate_all_data self w = Ok ((customers, products, txs), w') /\
    Z.of_nat (length customers) = n_customers self /\
    Z.of_nat (length products) = n_products self /\
    Z.of_nat (length txs) = n_transactions self.
Proof.
  intros HN HM HT. unfold generate_all_data.
  destruct (generate_customers_success self w ltac:(lia)) as (cs & Hcs & Hcids).
  rewrite (bind_step _ _ _ _ _ Hcs).
  destruct (generate_products_success self
              (shift (3 * Z.to_nat (n_customers self)) 0 w) ltac:(lia))
    as (ps & Hps & Hpids & _).
  rewrite (bind_step _ _ _ _ _ Hps).
  pose proof (map_range_length customer_id cs (n_customers self)
                ltac:(lia) Hcids) as Lcs.
  pose proof (map_range_length product_id ps (n_products self)
                ltac:(lia) Hpids) as Lps.
  assert (Ncs : cs <> []) by (intros ->; simpl in Lcs; lia).
  assert (Nps : ps <> []) by (intros ->; simpl in Lps; lia).
  destruct (generate_transactions_success self cs ps
              (shift (3 * Z.to_nat (n_products self)) 0
                 (shift (3 * Z.to_nat (n_customers self)) 0 w)) Ncs Nps)
    as (txs & Hts).
  rewrite (bind_step _ _ _ _ _ Hts).
  exists cs, ps, txs. eexists. split; [reflexivity |].
  apply generate_transactions_Ok in Hts as (_ & Hlen & _).
  repeat split; lia.
Qed.

End Script.

Lemma Qsum_between (l : list Q) (lo hi : Q) :
  Forall (fun x => lo <= x /\ x <= hi)%Q l ->
  (inject_Z (Z.of_nat (length l)) * lo <= Qsum l)%Q /\
  (Qsum l <= inject_Z (Z.of_nat (length l)) * hi)%Q.
Proof.
  induction 1 as [| x l [Hx1 Hx2] _ [IH1 IH2]].
  - cbn [length Qsum]. change (inject_Z (Z.of_nat 0)) with 0%Q. split; lra.
  - cbn [length Qsum]. rewrite Nat2Z.inj_succ, <- Z.add_1_r, inject_Z_plus.
    change (inject_Z 1) with 1%Q. split; lra.
Qed.

(** X11: asked for no transaction (count zero or less, with non-negative
    customer and product counts and a writable data folder) the script does
    not complete: the tables are generated and written, four lines are
    printed, and the revenue line raises [KeyError: 'total_amount'], because
    the transaction table made of no row has no column. *)
Theorem script_without_transactions_raises_KeyError `{Platform}
    (customers products transactions : Z) (w : World) (d : Disk) :
  0 <= customers -> 0 <= products -> transactions <= 0 ->
  can_write d "../data/customers.csv" = true ->
  can_write d "../data/products.csv" = true ->
  can_write d "../data/transactions.csv" = true ->
  exists cs ps d',
    script_with customers products transactions w d
      = (SavingRaised (KeyError "total_amount"), d') /\
    Z.of_nat (length cs) = customers /\ Z.of_nat (length ps) = products /\
    read_file d' "../data/customers.csv" = Some (CustomersCsv cs) /\
    read_file d' "../data/products.csv" = Some (ProductsCsv ps) /\
    read_file d' "../data/transactions.csv" = Some (TransactionsCsv []) /\
    stdout d'
    = stdout d
      ++ ["Data generated and saved:";
          "- Customers: " ++ format_int customers;
          "- Products: " ++ format_int products;
          "- Transactions: 0"]%string.
Proof.
  intros HN HM HT Hc Hp Ht.
  destruct (generate_all_data_without_transactions
              (mkGenerator customers products transactions) (seeded w)
              HN HM HT) as (cs & ps & w' & Hg & Lcs & Lps).
  cbn [n_customers n_products] in Lcs, Lps.
  exists cs, ps. eexists.
  unfold script_with. rewrite run_eq, Hg.
  rewrite (save_data_eq cs ps [] "../data/" d Hc Hp Ht). cbv zeta.
  split; [reflexivity |].
  cbn [stdout]. rewrite Lcs, Lps.
  repeat split.
Qed.

(** X11, for one customer, one product and no transaction on an empty
    disk. *)
Lemma script_without_transactions_raises_KeyError_witness :
  0 <= 1 /\ 0 <= 0 /\
  exists d',
    @script_with (tape_platform one_sale) 1 1 0 (world_at [0]) empty_disk
      = (SavingRaised (KeyError "total_amount"), d') /\
    read_file d' "../data/transactions.csv" = Some (TransactionsCsv []) /\
    stdout d'
    = ["Data generated and saved:"; "- Customers: 1"; "- Products: 1";
       "- Transactions: 0"]%string.
Proof.
  split; [lia | split; [lia |]].
  destruct (@script_without_transactions_raises_KeyError
              (tape_platform one_sale) 1 1 0 (world_at [0]) empty_disk
              ltac:(lia) ltac:(lia) ltac:(lia) eq_refl eq_refl eq_refl)
    as (cs & ps & d' & Hs & _ & _ & _ & _ & Ht & Hout).
  exists d'. split; [exact Hs | split; [exact Ht | exact Hout]].
Defined.

(** X12: with at least one customer, one product and one transaction and a
    writable data folder the script completes: the three files hold tables
    of N, M and T rows, and the five printed lines report these counts and
    the sum of the stored totals, which lies between 9.00 and 2750.00 per
    transaction. *)
Theorem script_completes_and_reports `{Platform}
    (customers products transactions : Z) (w : World) (d : Disk) :
  1 <= customers -> 1 <= products -> 1 <= transactions ->
  can_write d "../data/customers.csv" = true ->
  can_write d "../data/products.csv" = true ->
  can_write d "../data/transactions.csv" = true ->
  exists cs ps txs d',
    script_with customers products transactions w d = (Completed, d') /\
    Z.of_nat (length cs) = customers /\ Z.of_nat (length ps) = products /\
    Z.of_nat (length txs) = transactions /\
    read_file d' "../data/customers.csv" = Some (CustomersCsv cs) /\
    read_file d' "../data/products.csv" = Some (ProductsCsv ps) /\
    read_file d' "../data/transactions.csv" = Some (TransactionsCsv txs) /\
    stdout d'
    = stdout d
      ++ ["Data generated and saved:";
          "- Customers: " ++ format_int customers;
          "- Products: " ++ format_int products;
          "- Transactions: " ++ format_int transactions;
          "- Total Revenue: $"
          ++ format_money (Qsum (map total_amount txs))]%string /\
    (inject_Z transactions * 9 <= Qsum (map total_amount txs))%Q /\
    (Qsum (map total_amount txs) <= inject_Z transactions * 2750)%Q.
Proof.
  intros HN HM HT Hc Hp Ht.
  destruct (generate_all_data_with_transactions
              (mkGenerator customers products transactions) (seeded w)
              HN HM HT) as (cs & ps & txs & w' & Hg & Lcs & Lps & Lts).
  cbn [n_customers n_products n_transactions] in Lcs, Lps, Lts.
  assert (Nts : txs <> []) by (intros ->; simpl in Lts; lia).
  exists cs, ps, txs. eexists.
  unfold script_with. rewrite run_eq, Hg.
  rewrite (save_data_eq cs ps txs "../data/" d Hc Hp Ht). cbv zeta.
  destruct txs as [| t0 ts] eqn:Etxs; [congruence |]. rewrite <- Etxs in *.
  split; [reflexivity |].
  cbn [stdout files]. rewrite <- app_assoc. cbn [app].
  rewrite Lcs, Lps, Lts.
  do 7 (split; [reflexivity |]).
  assert (HF : Forall (fun x => 9 <= x /\ x <= 2750)%Q (map total_amount txs)).
  { apply Forall_map.
    pose proof (generate_all_data_Ok _ _ _ _ _ _ Hg) as (_ & Hps & Hts & _).
    apply Forall_forall. intros row Hin.
    destruct (generated_row_drawn _ _ _ _ _ _ _ Hts Hin) as (i & w0 & Hrow).
    destruct (drawn_amounts_bounded cs ps i w0 row) as (H1 & H2 & H3 & H4);
      [| exact Hrow | split; lra].
    intros p Hin'.
    destruct (product_price_and_cost_ranges _ _ _ _ _ Hps Hin')
      as (Hb1 & Hb2 & _).
    now split. }
  destruct (Qsum_between _ _ _ HF) as [Hlo Hhi].
  rewrite length_map, Lts in Hlo, Hhi. split; assumption.
Qed.

(** X12, for the counts of the script as written (2000, 200, 10000): the
    printed counts are [2,000], [200] and [10,000]. *)
Lemma script_completes_and_reports_witness :
  exists txs d',
    @script (tape_platform one_sale) (world_at []) empty_disk
      = (Completed, d') /\
    stdout d'
    = ["Data generated and saved:"; "- Customers: 2,000"; "- Products: 200";
       "- Transactions: 10,000";
       "- Total Revenue: $" ++ format_money (Qsum (map total_amount txs))]
      %string /\
    (90000 <= Qsum (map total_amount txs))%Q.
Proof.
  destruct (@script_completes_and_reports (tape_platform one_sale)
              2000 200 10000 (world_at []) empty_disk
              ltac:(lia) ltac:(lia) ltac:(lia) eq_refl eq_refl eq_refl)
    as (cs & ps & txs & d' & Hs & _ & _ & _ & _ & _ & _ & Hout & Hlo & _).
  exists txs, d'. split; [exact Hs | split; [exact Hout | exact Hlo]].
Defined.

(** * Properties of the practice script *)

Import Fundamentals.

Example statistics_of_student_data :
  get_statistics (new_analyzer student_data)
  = (Returned (Some (mkStats 3 (255 / 3) 92 78 (3 / 3 * 100))),
     clean_data (new_analyzer student_data)).
Proof. reflexivity. Qed.

Example majors_of_student_data :
  fst (get_major_distribution (new_analyzer student_data))
  = [("CS"%string, 1); ("Data Science"%string, 1); ("Engineering"%string, 1)].
Proof. reflexivity. Qed.

Example none_grade_in_processed_data_raises :
  fst (get_statistics
         (mkAnalyzer [] (Some [("Dan"%string, mkInfo None "CS")])))
  = TypeError.
Proof. reflexivity. Qed.

(** ** Sums, maxima and minima *)

Lemma fold_add_from (l : list Z) (a : Z) : fold_left Z.add l a = a + py_sum l.
Proof.
  unfold py_sum. revert a. induction l as [| x l IH]; intros a; cbn.
  - lia.
  - rewrite IH, (IH x). lia.
Qed.

Lemma py_sum_cons (x : Z) (l : list Z) : py_sum (x :: l) = x + py_sum l.
Proof. unfold py_sum at 1. cbn. now rewrite fold_add_from. Qed.

Lemma py_sum_ones {A} (l : list A) :
  py_sum (map (fun _ => 1) l) = Z.of_nat (length l).
Proof.
  induction l as [| x l IH]; [reflexivity |].
  cbn [map length]. rewrite py_sum_cons, IH. lia.
Qed.

Lemma py_sum_bounds (l : list Z) (lo hi : Z) :
  (forall g, In g l -> lo <= g <= hi) ->
  Z.of_nat (length l) * lo <= py_sum l <= Z.of_nat (length l) * hi.
Proof.
  induction l as [| x l IH]; intros Hall.
  - cbn. lia.
  - rewrite py_sum_cons. cbn [length].
    pose proof (Hall x (or_introl eq_refl)).
    assert (IH' := IH (fun g Hg => Hall g (or_intror Hg))). nia.
Qed.

Lemma fold_max_spec (l : list Z) (a : Z) :
  In (fold_left Z.max l a) (a :: l) /\
  forall g, In g (a :: l) -> g <= fold_left Z.max l a.
Proof.
  revert a. induction l as [| x l IH]; intros a; cbn [fold_left].
  - split; [now left | intros g [<- | []]; lia].
  - destruct (IH (Z.max a x)) as [Hin Hge]. split.
    + destruct Hin as [E | Hin]; [| now right; right].
      rewrite <- E. destruct (Z.max_spec a x) as [[_ ->] | [_ ->]];
        [right; now left | now left].
    + intros g [E | [E | Hg]].
      * specialize (Hge (Z.max a x) (or_introl eq_refl)). lia.
      * specialize (Hge (Z.max a x) (or_introl eq_refl)). lia.
      * apply Hge. now right.
Qed.

Lemma fold_min_spec (l : list Z) (a : Z) :
  In (fold_left Z.min l a) (a :: l) /\
  forall g, In g (a :: l) -> fold_left Z.min l a <= g.
Proof.
  revert a. induction l as [| x l IH]; intros a; cbn [fold_left].
  - split; [now left | intros g [<- | []]; lia].
  - destruct (IH (Z.min a x)) as [Hin Hle]. split.
    + destruct Hin as [E | Hin]; [| now right; right].
      rewrite <- E. destruct (Z.min_spec a x) as [[_ ->] | [_ ->]];
        [now left | right; now left].
    + intros g [E | [E | Hg]].
      * specialize (Hle (Z.min a x) (or_introl eq_refl)). lia.
      * specialize (Hle (Z.min a x) (or_introl eq_refl)). lia.
      * apply Hle. now right.
Qed.

Lemma Qdiv_between (s n lo hi : Z) :
  0 < n -> n * lo <= s <= n * hi ->
  (inject_Z lo <= inject_Z s / inject_Z n)%Q /\
  (inject_Z s / inject_Z n <= inject_Z hi)%Q.
Proof.
  intros Hn [Hlo Hhi].
  assert (Hn' : (0 < inject_Z n)%Q)
    by (change 0%Q with (inject_Z 0); now rewrite <- Zlt_Qlt).
  split.
  - apply Qle_shift_div_l; [exact Hn' |].
    rewrite <- inject_Z_mult, <- Zle_Qle. lia.
  - apply Qle_shift_div_r; [exact Hn' |].
    rewrite <- inject_Z_mult, <- Zle_Qle. lia.
Qed.

Lemma analyze_grades_Some (grades : list Z) (s : GradeStats) :
  analyze_grades grades = Some s ->
  count s = Z.of_nat (length grades) /\
  In (lowest s) grades /\ In (highest s) grades /\
  (forall g, In g grades -> lowest s <= g <= highest s) /\
  (inject_Z (lowest s) <= average s)%Q /\
  (average s <= inject_Z (highest s))%Q /\
  (average s * inject_Z (count s) == inject_Z (py_sum grades))%Q.
Proof.
  intros Hs. destruct grades as [| g rest]; [discriminate |].
  unfold analyze_grades in Hs. cbv zeta in Hs. injection Hs as <-.
  cbn [count lowest highest average].
  destruct (fold_max_spec rest g) as [Hmax_in Hmax].
  destruct (fold_min_spec rest g) as [Hmin_in Hmin].
  set (n := Z.of_nat (length (g :: rest))).
  assert (Hn : 0 < n) by (unfold n; cbn [length]; lia).
  assert (Hn' : ~ (inject_Z n == 0)%Q).
  { change 0%Q with (inject_Z 0). rewrite inject_Z_injective. lia. }
  assert (Hall : forall x, In x (g :: rest) ->
                   fold_left Z.min rest g <= x <= fold_left Z.max rest g)
    by (intros x Hx; split; [now apply Hmin | now apply Hmax]).
  pose proof (py_sum_bounds _ _ _ Hall) as Hsum. fold n in Hsum.
  destruct (Qdiv_between _ _ _ _ Hn Hsum) as [Havg1 Havg2].
  repeat split; try assumption; try (now apply Hall).
  field. exact Hn'.
Qed.



Lemma filter_length_le {A} (f : A -> bool) (l : list A) :
  (length (filter f l) <= length l)%nat.
Proof.
  induction l as [| x l IH]; cbn; [lia |].
  destruct (f x); cbn; lia.
Qed.

Lemma filter_length_all {A} (f : A -> bool) (l : list A) :
  length (filter f l) = length l <-> forall x, In x l -> f x = true.
Proof.
  induction l as [| x l IH]; cbn [filter length In].
  - split; [intros _ y [] | reflexivity].
  - pose proof (filter_length_le f l) as Hle.
    destruct (f x) eqn:E; cbn [length]; split.
    + intros Hlen y [<- | Hy]; [exact E | apply IH; [lia | exact Hy]].
    + intros Hall. f_equal. apply IH. intros y Hy. apply Hall. now right.
    + intros Hlen. lia.
    + intros Hall. specialize (Hall x (or_introl eq_refl)). congruence.
Qed.

Lemma filter_length_none {A} (f : A -> bool) (l : list A) :
  length (filter f l) = 0%nat <-> forall x, In x l -> f x = false.
Proof.
  induction l as [| x l IH]; cbn [filter length In].
  - split; [intros _ y [] | reflexivity].
  - destruct (f x) eqn:E; cbn [length]; split.
    + intros Hlen. lia.
    + intros Hall. specialize (Hall x (or_introl eq_refl)). congruence.
    + intros Hlen y [<- | Hy]; [exact E | now apply IH].
    + intros Hall. apply IH. intros y Hy. apply Hall. now right.
Qed.

(** X14: the passing rate that [analyze_grades] reports lies between 0 and
    100; it is 100 exactly when every grade is at least 70 and 0 exactly
    when every grade is below 70. *)
Theorem passing_rate_range (grades : list Z) (s : GradeStats) :
  analyze_grades grades = Some s ->
  (0 <= passing_rate s)%Q /\ (passing_rate s <= 100)%Q /\
  ((passing_rate s == 100)%Q <-> forall g, In g grades -> 70 <= g) /\
  ((passing_rate s == 0)%Q <-> forall g, In g grades -> g < 70).
Proof.
  intros Hs. destruct grades as [| g0 rest]; [discriminate |].
  unfold analyze_grades in Hs. cbv zeta in Hs.
  apply (f_equal (fun o => match o with
                           | Some x => passing_rate x
                           | None => 0%Q
                           end)) in Hs.
  cbv beta iota in Hs.
  match type of Hs with
  | passing_rate (mkStats _ _ _ _ ?e) = _ => change (e = passing_rate s) in Hs
  end.
  rewrite <- Hs.
  rewrite py_sum_ones.
  set (l := g0 :: rest).
  set (k := Z.of_nat (length (filter (fun g => 70 <=? g) l))).
  set (n := Z.of_nat (length l)).
  assert (Hn : 0 < n) by (unfold n, l; cbn [length]; lia).
  assert (Hk : 0 <= k <= n).
  { unfold k, n. pose proof (filter_length_le (fun g => 70 <=? g) l). lia. }
  assert (Hn' : (0 < inject_Z n)%Q)
    by (change 0%Q with (inject_Z 0); now rewrite <- Zlt_Qlt).
  assert (Hk0 : (0 <= inject_Z k)%Q)
    by (change 0%Q with (inject_Z 0); rewrite <- Zle_Qle; lia).
  assert (Hkn : (inject_Z k <= inject_Z n)%Q) by (rewrite <- Zle_Qle; lia).
  assert (Hratio : (0 <= inject_Z k / inject_Z n)%Q /\
                   (inject_Z k / inject_Z n <= 1)%Q).
  { split.
    - apply Qle_shift_div_l; [exact Hn' | lra].
    - apply Qle_shift_div_r; [exact Hn' | lra]. }
  set (r := (inject_Z k / inject_Z n)%Q) in *.
  split; [lra | split; [lra | split]].
  - assert (E : (r * 100 == 100)%Q <-> k = n).
    { split.
      - intros E.
        assert (E2 : (r == 1)%Q) by lra.
        assert (E1 : (inject_Z k == inject_Z n)%Q).
        { rewrite <- (Qmult_1_l (inject_Z n)), <- E2. unfold r. field. lra. }
        exact (proj1 (inject_Z_injective k n) E1).
      - intros Ekn. unfold r. rewrite Ekn. field. lra. }
    rewrite E. unfold k, n.
    rewrite Nat2Z.inj_iff, filter_length_all.
    split; intros Hall g Hg; specialize (Hall g Hg); lia.
  - assert (E : (r * 100 == 0)%Q <-> k = 0).
    { split.
      - intros E.
        assert (E2 : (r == 0)%Q) by lra.
        assert (E1 : (inject_Z k == inject_Z 0)%Q).
        { change (inject_Z 0) with 0%Q.
          rewrite <- (Qmult_0_l (inject_Z n)), <- E2. unfold r. field. lra. }
        exact (proj1 (inject_Z_injective k 0) E1).
      - intros Ek0. unfold r. rewrite Ek0.
        change (inject_Z 0) with 0%Q. field. lra. }
    rewrite E. unfold k.
    change 0 with (Z.of_nat 0). rewrite Nat2Z.inj_iff, filter_length_none.
    split; intros Hall g Hg; specialize (Hall g Hg); lia.
Qed.

(** X14, for the grades 85, 92, 78: all pass, the rate is 100. *)
Lemma passing_rate_range_witness :
  exists s,
    analyze_grades [85; 92; 78] = Some s /\ (passing_rate s == 100)%Q /\
    (passing_rate s <= 100)%Q.
Proof.
  eexists. split; [reflexivity |].
  destruct (passing_rate_range [85; 92; 78] _ eq_refl)
    as (_ & Hhi & _).
  split; [reflexivity | exact Hhi].
Defined.

(** ** The analyzer *)

Lemma ensure_clean_consistent (self : StudentAnalyzer) :
  consistent self ->
  ensure_clean self
  = mkAnalyzer (data self)
      (Some (filter (fun item => valid_grade (snd item)) (data self))).
Proof.
  destruct self as [d pd]. unfold consistent, ensure_clean. cbn [processed_data data].
  intros [-> | ->]; [reflexivity |].
  destruct (filter _ d) eqn:E; cbn [falsy]; unfold clean_data;
    cbn [data]; now rewrite ?E.
Qed.

(** The grades of cleaned data are numbers between 0 and 100. *)
Lemma numbers_of_valid (d : StudentData) :
  exists l,
    numbers (map grade
               (map snd (filter (fun item => valid_grade (snd item)) d)))
      = Some l /\
    length l = length (filter (fun item => valid_grade (snd item)) d) /\
    forall g, In g l -> 0 <= g <= 100.
Proof.
  induction d as [| [name info] d (l & Hl & Hlen & Hall)].
  - exists []. split; [reflexivity | split; [reflexivity | intros g []]].
  - cbn [filter snd]. destruct (valid_grade info) eqn:Ev.
    + unfold valid_grade in Ev.
      destruct (grade info) as [g |] eqn:Eg; [| discriminate].
      apply andb_true_iff in Ev as [Ev0 Ev100].
      exists (g :: l). cbn [map snd numbers]. rewrite Eg, Hl.
      split; [reflexivity | split; [cbn; now rewrite Hlen |]].
      intros x [Ex | Hx]; [lia | now apply Hall].
    + exists l. auto.
Qed.

(** X15: on an analyzer as the constructor and the methods leave it,
    [get_statistics] never raises; it leaves the analyzer with the valid
    entries (grade between 0 and 100) as processed data and the data
    untouched.  It returns [None] exactly when no entry is valid; otherwise
    the count is the number of valid entries and lowest, average and highest
    grade lie between 0 and 100, in this order. *)
Theorem get_statistics_of_clean_data (self : StudentAnalyzer) :
  consistent self ->
  let valid := filter (fun item => valid_grade (snd item)) (data self) in
  exists r,
    get_statistics self = (Returned r, mkAnalyzer (data self) (Some valid)) /\
    (r = None <-> valid = []) /\
    forall s, r = Some s ->
      count s = Z.of_nat (length valid) /\
      0 <= lowest s /\ highest s <= 100 /\
      (inject_Z (lowest s) <= average s)%Q /\
      (average s <= inject_Z (highest s))%Q.
Proof.
  intros Hc valid. unfold get_statistics. cbv zeta.
  rewrite (ensure_clean_consistent self Hc). fold valid.
  unfold processed_values. cbn [processed_data].
  destruct (numbers_of_valid (data self)) as (l & Hl & Hlen & Hall).
  fold valid in Hl, Hlen. rewrite Hl.
  exists (analyze_grades l). split; [reflexivity | split].
  - destruct l, valid; cbn in *; split; intros E; congruence.
  - intros s Hs.
    destruct (analyze_grades_Some l s Hs)
      as (Hcount & Hlo & Hhi & _ & Havg1 & Havg2 & _).
    pose proof (Hall _ Hlo). pose proof (Hall _ Hhi).
    repeat split; try assumption; try lia; congruence.
Qed.

(** X15, for the student data of the script, with an entry of grade 120 and
    one without grade added: three entries are valid. *)
Lemma get_statistics_of_clean_data_witness :
  let d := student_data ++ [("Dan"%string, mkInfo (Some 120) "CS");
                            ("Eve"%string, mkInfo None "CS")] in
  consistent (new_analyzer d) /\
  exists s a,
    get_statistics (new_analyzer d) = (Returned (Some s), a) /\
    count s = 3 /\ 0 <= lowest s /\ highest s <= 100.
Proof.
  intros d.
  assert (Hc : consistent (new_analyzer d)) by now left.
  split; [exact Hc |].
  destruct (get_statistics_of_clean_data (new_analyzer d) Hc)
    as (r & Hr & _ & Hs).
  assert (Er : r = analyze_grades [85; 92; 78]).
  { assert (E : fst (get_statistics (new_analyzer d))
                = Returned (analyze_grades [85; 92; 78])) by reflexivity.
    rewrite Hr in E. cbn [fst] in E. congruence. }
  destruct (analyze_grades [85; 92; 78]) as [s |] eqn:Es; [| discriminate Es].
  destruct (Hs s Er) as (Hcount & Hlo & Hhi & _).
  exists s. eexists. rewrite Hr, Er.
  split; [reflexivity | split; [exact Hcount | split; assumption]].
Defined.

(** ** The counts of majors *)

Lemma dict_get_set (d : list (string * Z)) (k k' : string) (v default : Z) :
  dict_get (dict_set d k v) k' default
  = if String.eqb k k' then v else dict_get d k' default.
Proof.
  unfold dict_get. induction d as [| [k0 v0] d IH]; cbn [dict_set find fst snd].
  - now destruct (String.eqb k k').
  - destruct (String.eqb_spec k0 k) as [-> | Hne]; cbn [find fst snd].
    + now destruct (String.eqb k k').
    + destruct (String.eqb_spec k0 k') as [-> | Hne'].
      * destruct (String.eqb_spec k k') as [E | _]; [congruence | reflexivity].
      * exact IH.
Qed.

Lemma dict_set_keys (d : list (string * Z)) (k : string) (v : Z) :
  map fst (dict_set d k v)
  = if existsb (String.eqb k) (map fst d) then map fst d else map fst d ++ [k].
Proof.
  induction d as [| [k0 v0] d IH]; cbn [dict_set map fst existsb app];
    [reflexivity |].
  rewrite (String.eqb_sym k k0).
  destruct (String.eqb k0 k); cbn [map fst orb]; [reflexivity |].
  rewrite IH. now destruct (existsb (String.eqb k) (map fst d)).
Qed.

Lemma dict_set_sum (d : list (string * Z)) (k : string) :
  py_sum (map snd (dict_set d k (dict_get d k 0 + 1)))
  = py_sum (map snd d) + 1.
Proof.
  unfold dict_get. induction d as [| [k0 v0] d IH];
    cbn [dict_set find map fst snd].
  - rewrite !py_sum_cons. unfold py_sum. cbn. lia.
  - destruct (String.eqb k0 k); cbn [map snd].
    + rewrite !py_sum_cons. lia.
    + rewrite !py_sum_cons, IH. lia.
Qed.

Lemma count_majors_get (infos : list StudentInfo) :
  forall (d : list (string * Z)) (m : string),
  dict_get (count_majors infos d) m 0
  = dict_get d m 0 + Z.of_nat (count_occ string_dec (map major infos) m).
Proof.
  unfold count_majors.
  induction infos as [| info infos IH]; intros d m; cbn [fold_left map count_occ].
  - lia.
  - rewrite IH, dict_get_set.
    destruct (string_dec (major info) m) as [-> | Hne].
    + rewrite String.eqb_refl. lia.
    + destruct (String.eqb_spec (major info) m); [contradiction | lia].
Qed.

Lemma count_majors_keys (infos : list StudentInfo) :
  forall (d : list (string * Z)),
  NoDup (map fst d) ->
  NoDup (map fst (count_majors infos d)) /\
  forall m, In m (map fst (count_majors infos d))
            <-> In m (map fst d) \/ In m (map major infos).
Proof.
  unfold count_majors.
  induction infos as [| info infos IH]; intros d Hnd; cbn [fold_left map In].
  - split; [exact Hnd | tauto].
  - set (d' := dict_set d (major info) (dict_get d (major info) 0 + 1)).
    assert (Hkeys : map fst d'
                    = if existsb (String.eqb (major info)) (map fst d)
                      then map fst d else map fst d ++ [major info])
      by apply dict_set_keys.
    assert (Hin : forall m, In m (map fst d')
                            <-> In m (map fst d) \/ major info = m).
    { intros m. rewrite Hkeys.
      destruct (existsb _ (map fst d)) eqn:Ex.
      - apply existsb_exists in Ex as (k & Hk & Ek).
        apply String.eqb_eq in Ek. subst k.
        split; [tauto | intros [Hm | <-]; assumption].
      - rewrite in_app_iff. cbn [In]. tauto. }
    assert (Hnd' : NoDup (map fst d')).
    { rewrite Hkeys. destruct (existsb _ (map fst d)) eqn:Ex; [exact Hnd |].
      apply NoDup_app; [exact Hnd | repeat constructor; intros [] |].
      intros m Hm [<- | []].
      assert (Hex : existsb (String.eqb (major info)) (map fst d) = true).
      { apply existsb_exists. exists (major info).
        split; [exact Hm | apply String.eqb_refl]. }
      congruence. }
    destruct (IH d' Hnd') as [Hnd'' Hin'']. split; [exact Hnd'' |].
    intros m. rewrite Hin'', Hin. tauto.
Qed.

Lemma count_majors_sum (infos : list StudentInfo) :
  forall (d : list (string * Z)),
  py_sum (map snd (count_majors infos d))
  = py_sum (map snd d) + Z.of_nat (length infos).
Proof.
  unfold count_majors.
  induction infos as [| info infos IH]; intros d; cbn [fold_left length].
  - lia.
  - rewrite IH, dict_set_sum. lia.
Qed.

(** X16: on an analyzer as the constructor and the methods leave it,
    [get_major_distribution] maps every major to the number of valid
    entries that carry it; its keys are exactly the majors of the valid
    entries, each once, and the counts add up to the number of valid
    entries. *)
Theorem major_distribution_counts_valid_entries (self : StudentAnalyzer) :
  consistent self ->
  let valid := filter (fun item => valid_grade (snd item)) (data self) in
  let majors := map major (map snd valid) in
  let counts := fst (get_major_distribution self) in
  snd (get_major_distribution self) = mkAnalyzer (data self) (Some valid) /\
  (forall m, dict_get counts m 0 = Z.of_nat (count_occ string_dec majors m)) /\
  NoDup (map fst counts) /\
  (forall m, In m (map fst counts) <-> In m majors) /\
  py_sum (map snd counts) = Z.of_nat (length valid).
Proof.
  intros Hc valid majors counts.
  unfold counts, get_major_distribution. cbv zeta. cbn [fst snd].
  rewrite (ensure_clean_consistent self Hc). fold valid.
  unfold processed_values. cbn [processed_data].
  split; [reflexivity | split; [| split; [| split]]].
  - intros m. now rewrite count_majors_get.
  - apply count_majors_keys. constructor.
  - intros m.
    rewrite (proj2 (count_majors_keys (map snd valid) [] (NoDup_nil _)) m).
    cbn [map In]. tauto.
  - rewrite count_majors_sum, length_map. cbn. lia.
Qed.

(** X16, for four students of which one has no valid grade: two majors,
    [CS] twice. *)
Lemma major_distribution_counts_valid_entries_witness :
  let d := [("Alice"%string, mkInfo (Some 85) "CS");
            ("Bob"%string, mkInfo (Some 92) "DS");
            ("Dan"%string, mkInfo (Some 120) "DS");
            ("Eve"%string, mkInfo (Some 70) "CS")] in
  consistent (new_analyzer d) /\
  fst (get_major_distribution (new_analyzer d))
  = [("CS"%string, 2); ("DS"%string, 1)] /\
  dict_get (fst (get_major_distribution (new_analyzer d))) "CS" 0 = 2 /\
  py_sum (map snd (fst (get_major_distribution (new_analyzer d)))) = 3.
Proof.
  intros d.
  assert (Hc : consistent (new_analyzer d)) by now left.
  split; [exact Hc | split; [reflexivity |]].
  destruct (major_distribution_counts_valid_entries (new_analyzer d) Hc)
    as (_ & Hget & _ & _ & Hsum).
  split; [rewrite Hget; reflexivity | rewrite Hsum; reflexivity].
Defined.
